(** * neurodb: telemetry collection over a database connection

    A shallow embedding of [neurodb/executor.py], [neurodb/telemetry.py] and
    the [DatabaseType] enumeration of [neurodb/config.py], followed by the
    properties of the telemetry subsystem.

    Python code that talks to the connection, reads the clock or writes to the
    logger is written in a state-and-exception monad [Py] over a [World];
    [try]/[except] is the combinator [try_except].  The SQLAlchemy connection
    and [pandas.read_sql] are external: the connection is a deterministic
    behaviour (a function from the statements already sent and the statement
    being sent to a response), and [pd_read_sql] is modelled after what pandas
    does with it (one [execute], whose SQLAlchemy errors pandas raises as its
    own [DatabaseError], then [ResourceClosedError] when the result has no
    rows to fetch).  What [int()] makes of a text is computed where every
    interpreter agrees (ASCII text of moderate length) and is otherwise left
    to the interpreter, as a component of the world. *)

From Stdlib Require Import ZArith QArith String Ascii List Bool Lia.
From Stdlib Require DecimalString.
Import ListNotations.

Local Open Scope Z_scope.
Local Open Scope string_scope.
Local Open Scope list_scope.

(* ------------------------------------------------------------------ *)
(** ** Values *)

(** A value held in a cell of a result set, or bound to a parameter: an
    integer, a finite float or [Decimal] (by its exact value), a boolean, a
    text, NaN (a missing value in a numeric column), or [None]. *)
Inductive Cell : Type :=
| CInt (z : Z)
| CReal (x : Q)
| CBool (b : bool)
| CStr (s : string)
| CNaN
| CNull.

(** [Dict[str, Any]]: parameter bindings, in insertion order. *)
Definition Params : Type := list (string * Cell).

(** [pd.DataFrame]: column labels and the rows under them. *)
Record DataFrame : Type := mkDataFrame {
  columns : list string;
  rows : list (list Cell)
}.

(** [sqlalchemy.engine.Result]: what [Connection.execute] hands back; it
    carries rows only when the statement produced a result set. *)
Record Result : Type := mkResult {
  returns_rows : option DataFrame
}.

(** [Union[pd.DataFrame, Result]]. *)
Inductive QueryResult : Type :=
| Frame (df : DataFrame)
| Ack (r : Result).

(** Exceptions, each given by its class and a message; for the exceptions
    of the connection and of pandas, which are the ones [execute_query]
    prints, the message is the text [str()] renders (for a [KeyError], the
    [repr] of the key).  Every one of them is a subclass of [Exception].
    [ResourceClosedError] and [DriverError]
    are the subclasses of [sqlalchemy.exc.SQLAlchemyError]: [DriverError]
    stands for whatever else SQLAlchemy raises on behalf of the driver
    (OperationalError, ProgrammingError, IntegrityError, ...).
    [PandasDatabaseError] is [pandas.errors.DatabaseError], raised from the
    exception it names as its cause. *)
Inductive PyExc : Type :=
| ResourceClosedError (msg : string)
| DriverError (msg : string)
| PandasDatabaseError (msg : string) (cause : PyExc)
| QueryExecutionError (message : string) (original_error : PyExc)
| ValueError (msg : string)
| TypeError (msg : string)
| AttributeError (msg : string)
| KeyError (msg : string)
| IndexError (msg : string).

(** [str(e)]. *)
Definition exc_str (e : PyExc) : string :=
  match e with
  | ResourceClosedError m | DriverError m | PandasDatabaseError m _
  | QueryExecutionError m _
  | ValueError m | TypeError m | AttributeError m | KeyError m
  | IndexError m => m
  end.

(** [isinstance(e, SQLAlchemyError)]. *)
Definition is_SQLAlchemyError (e : PyExc) : bool :=
  match e with
  | ResourceClosedError _ | DriverError _ => true
  | _ => false
  end.

Definition is_ResourceClosedError (e : PyExc) : bool :=
  match e with ResourceClosedError _ => true | _ => false end.

(** [except Exception]. *)
Definition is_Exception (e : PyExc) : bool := true.

(* ------------------------------------------------------------------ *)
(** ** The world: connection traffic, clock, logger *)

(** One statement as it reaches the connection. *)
Record Statement : Type := mkStatement {
  text : string;
  bound : option Params
}.

Inductive Response : Type :=
| Rows (df : DataFrame)        (* a result set *)
| NoRows                       (* executed, nothing to fetch *)
| Fails (e : PyExc).           (* the driver raised *)

(** [sqlalchemy.engine.Connection], by its behaviour. *)
Record Connection : Type := mkConnection {
  respond : list Statement -> Statement -> Response
}.

Inductive LogLevel : Type := DEBUG | WARNING | ERROR.

Record World : Type := mkWorld {
  sent : list Statement;            (* statements sent so far, oldest first *)
  clock_reads : nat;                (* how often the clock was read *)
  wall_clock : nat -> Q;            (* the n-th reading of the host clock *)
  int_of_text : string -> option Z; (* the interpreter's [int()] on a text *)
  journal : list (LogLevel * string)
}.

Inductive Outcome (A : Type) : Type :=
| Returned (a : A)
| Raised (e : PyExc).
Arguments Returned {A} a.
Arguments Raised {A} e.

Definition Py (A : Type) : Type := World -> Outcome A * World.

Definition ret {A} (a : A) : Py A := fun w => (Returned a, w).

Definition raise {A} (e : PyExc) : Py A := fun w => (Raised e, w).

Definition bind {A B} (m : Py A) (k : A -> Py B) : Py B :=
  fun w =>
    match m w with
    | (Returned a, w') => k a w'
    | (Raised e, w') => (Raised e, w')
    end.

(** [try: body  except <catches> as e: handler e]. *)
Definition try_except {A} (catches : PyExc -> bool)
    (body : Py A) (handler : PyExc -> Py A) : Py A :=
  fun w =>
    match body w with
    | (Returned a, w') => (Returned a, w')
    | (Raised e, w') => if catches e then handler e w' else (Raised e, w')
    end.

Declare Scope py_scope.
Delimit Scope py_scope with py.
Notation "x <- m ;; k" := (bind m (fun x => k))
  (at level 61, m at next level, right associativity) : py_scope.
Notation "m ;; k" := (bind m (fun _ => k))
  (at level 61, right associativity) : py_scope.
Local Open Scope py_scope.

(** [logger.<level>(message, ...)]. *)
Definition log_emit (lvl : LogLevel) (message : string) : Py unit :=
  fun w => (Returned tt,
            mkWorld (sent w) (clock_reads w) (wall_clock w) (int_of_text w)
                    (journal w ++ [(lvl, message)])).

(** [time.time()] and [datetime.now()]: the next reading of the clock. *)
Definition time_time : Py Q :=
  fun w => (Returned (wall_clock w (clock_reads w)),
            mkWorld (sent w) (S (clock_reads w)) (wall_clock w) (int_of_text w)
                    (journal w)).

Definition datetime_now : Py Q := time_time.

Definition deliver (s : Statement) (w : World) : World :=
  mkWorld (sent w ++ [s]) (clock_reads w) (wall_clock w) (int_of_text w)
          (journal w).

(** [connection.execute(text, params)]. *)
Definition connection_execute (c : Connection) (query_text : string)
    (params : option Params) : Py Result :=
  fun w =>
    let s := mkStatement query_text params in
    match respond c (sent w) s with
    | Rows df => (Returned (mkResult (Some df)), deliver s w)
    | NoRows => (Returned (mkResult None), deliver s w)
    | Fails e => (Raised e, deliver s w)
    end.

(** What [pd.read_sql] raises when the connection's [execute] raised
    [exc]: pandas catches a [SQLAlchemyError] and raises its own
    [DatabaseError] from it; any other exception passes through. *)
Definition execution_failed (sql : string) (exc : PyExc) : PyExc :=
  if is_SQLAlchemyError exc
  then PandasDatabaseError
         ("Execution failed on sql '" ++ sql ++ "': " ++ exc_str exc)%string
         exc
  else exc.

(** [pd.read_sql(text, con=connection, params=params)]: executes the
    statement on the connection, inside the guard of [execution_failed],
    and then reads the column names and the rows of the result; a result
    without rows raises [ResourceClosedError] there, outside that guard. *)
Definition pd_read_sql (query_text : string) (con : Connection)
    (params : option Params) : Py DataFrame :=
  fun w =>
    let s := mkStatement query_text params in
    match respond con (sent w) s with
    | Rows df => (Returned df, deliver s w)
    | NoRows =>
        (Raised (ResourceClosedError
                   "This result object does not return rows. It has been closed automatically."),
         deliver s w)
    | Fails e => (Raised (execution_failed query_text e), deliver s w)
    end.

(* ------------------------------------------------------------------ *)
(** ** executor.py *)

Record SafeQueryExecutor : Type := mkSafeQueryExecutor {
  connection : Connection
}.

Definition execute_query (self : SafeQueryExecutor) (query : string)
    (params : option Params) (raise_on_fail : bool) (return_results : bool)
    : Py (option QueryResult) :=
  try_except is_Exception
    (log_emit DEBUG "Executing query: %s with params: %s" ;;
     let query_text := query in
     if negb return_results then
       r <- connection_execute (connection self) query_text params ;;
       ret (Some (Ack r))
     else
       try_except is_ResourceClosedError
         (df <- pd_read_sql query_text (connection self) params ;;
          ret (Some (Frame df)))
         (fun _ =>
            result <- connection_execute (connection self) query_text params ;;
            ret (Some (Ack result))))
    (fun e =>
       let error_msg :=
         ("Query execution failed: " ++ query ++ ". Error: " ++ exc_str e)%string in
       log_emit ERROR error_msg ;;
       if raise_on_fail then raise (QueryExecutionError error_msg e)
       else ret None).

Definition execute_command (self : SafeQueryExecutor) (command : string)
    (params : option Params) : Py bool :=
  try_except is_Exception
    (execute_query self command params false false ;;
     ret true)
    (fun e =>
       log_emit ERROR "Command execution failed: %s. Error: %s" ;;
       ret false).

(* ------------------------------------------------------------------ *)
(** ** The Python and pandas operations telemetry.py relies on *)

(** The ASCII whitespace that [int(str)] strips: tab, line feed, vertical
    tab, form feed, carriage return and space. *)
Definition is_space (c : ascii) : bool :=
  let n := nat_of_ascii c in
  ((9 <=? n)%nat && (n <=? 13)%nat) || (n =? 32)%nat.

Fixpoint lstrip (l : list ascii) : list ascii :=
  match l with
  | c :: t => if is_space c then lstrip t else l
  | [] => []
  end.

Definition strip (l : list ascii) : list ascii :=
  rev (lstrip (rev (lstrip l))).

Definition digit_val (c : ascii) : option Z :=
  let n := nat_of_ascii c in
  if ((48 <=? n)%nat && (n <=? 57)%nat) then Some (Z.of_nat n - 48) else None.

(** Decimal digits, single underscores allowed between two digits. *)
Fixpoint digits_acc (l : list ascii) (after_digit : bool) (acc : Z)
    : option Z :=
  match l with
  | [] => if after_digit then Some acc else None
  | c :: t =>
      match digit_val c with
      | Some d => digits_acc t true (10 * acc + d)
      | None =>
          if (Ascii.eqb c "_" && after_digit)%bool then digits_acc t false acc
          else None
      end
  end.

(** [int()] on an ASCII text: surrounding whitespace stripped, an optional
    sign, then decimal digits. *)
Definition int_of_str (s : string) : option Z :=
  match strip (list_ascii_of_string s) with
  | c :: t =>
      if Ascii.eqb c "-" then option_map Z.opp (digits_acc t false 0)
      else if Ascii.eqb c "+" then digits_acc t false 0
      else digits_acc (c :: t) false 0
  | [] => None
  end.

(** The texts on which [int()] is the same in every interpreter: ASCII only
    (no Unicode digits or spaces, which depend on the interpreter's
    character tables) and at most 640 characters (below any limit on the
    number of digits the interpreter can be set to). *)
Definition plain_text (s : string) : bool :=
  forallb (fun c => (nat_of_ascii c <? 128)%nat) (list_ascii_of_string s)
  && (String.length s <=? 640)%nat.

(** [int(s)] for a text [s]: computed on plain text, the interpreter's
    answer otherwise.  [None] stands for [ValueError]. *)
Definition str_to_int (interpreter : string -> option Z) (s : string)
    : option Z :=
  if plain_text s then int_of_str s else interpreter s.

(** [int(x)]: an integer is itself, a float or [Decimal] is truncated
    towards zero, [True] is 1 and [False] is 0, a text is read. *)
Definition py_int (x : Cell) : Py Z :=
  match x with
  | CInt z => ret z
  | CReal x => ret (Z.quot (Qnum x) (Zpos (Qden x)))
  | CBool b => ret (if b then 1 else 0)
  | CStr s =>
      fun w =>
        match str_to_int (int_of_text w) s with
        | Some z => ret z w
        | None =>
            raise (ValueError "invalid literal for int() with base 10") w
        end
  | CNaN => raise (ValueError "cannot convert float NaN to integer")
  | CNull => raise (TypeError "int() argument must be a string, a bytes-like object or a real number, not 'NoneType'")
  end.

(** [label in df.columns]. *)
Definition in_columns (label : string) (df : DataFrame) : bool :=
  existsb (String.eqb label) (columns df).

Fixpoint position (label : string) (l : list string) : nat :=
  match l with
  | [] => O
  | x :: t => if String.eqb label x then O else S (position label t)
  end.

Definition occurrences (label : string) (df : DataFrame) : nat :=
  length (filter (String.eqb label) (columns df)).

Definition cell_at (label : string) (df : DataFrame) (row : list Cell)
    : Cell :=
  nth (position label (columns df)) row CNull.

(** [len(df)]. *)
Definition df_len (df : DataFrame) : nat := length (rows df).

(** [df.empty]: some axis has length zero. *)
Definition df_empty (df : DataFrame) : bool :=
  match rows df, columns df with
  | [], _ => true
  | _, [] => true
  | _ :: _, _ :: _ => false
  end.

(** [df[label].tolist()]; under a repeated label [df[label]] is a frame,
    which has no [tolist]. *)
Definition column_tolist (df : DataFrame) (label : string)
    : Py (list Cell) :=
  match occurrences label df with
  | O => raise (KeyError ("'" ++ label ++ "'")%string)
  | S O => ret (map (cell_at label df) (rows df))
  | S (S _) =>
      raise (AttributeError "'DataFrame' object has no attribute 'tolist'")
  end.

(** [int(df.iloc[0][label])]; under a repeated label the value is a
    series of several cells, which [int] rejects. *)
Definition int_iloc0 (df : DataFrame) (label : string) : Py Z :=
  match rows df with
  | [] => raise (IndexError "single positional indexer is out-of-bounds")
  | row :: _ =>
      match occurrences label df with
      | O => raise (KeyError ("'" ++ label ++ "'")%string)
      | S O => py_int (cell_at label df row)
      | S (S _) => raise (TypeError "cannot convert the series to <class 'int'>")
      end
  end.

(* ------------------------------------------------------------------ *)
(** ** telemetry.py *)

Record QueryMetrics : Type := mkQueryMetrics {
  query : string;
  params : option Params;
  execution_time : Q;
  row_count : nat;
  timestamp : Q;
  indexes_used : list Cell;
  table_scans : Z;
  temp_tables : Z;
  memory_used : option Z
}.

(** The two collector classes.  Their probe statements are the literals of
    the source (adjacent Python string literals joined). *)

Module MySQLTelemetryCollector.

Record t : Type := new {
  connection : Connection;
  executor : SafeQueryExecutor
}.

Definition _get_used_indexes (self : t) : Py (list Cell) :=
  try_except is_Exception
    (result <- execute_query (executor self)
                 "SELECT index_name FROM information_schema.statistics WHERE table_schema = DATABASE()"
                 None false true ;;
     match result with
     | Some (Frame df) =>
         if in_columns "index_name" df
         then column_tolist df "index_name"
         else ret []
     | _ => ret []
     end)
    (fun e =>
       log_emit WARNING "Failed to get index information: %s" ;;
       ret []).

Definition _get_table_scans (self : t) : Py Z :=
  try_except is_Exception
    (result <- execute_query (executor self)
                 "SHOW STATUS LIKE 'Handler_read%'"
                 None false true ;;
     match result with
     | Some (Frame df) =>
         if in_columns "Value" df && negb (df_empty df)
         then int_iloc0 df "Value"
         else ret 0
     | _ => ret 0
     end)
    (fun e =>
       log_emit WARNING "Failed to get table scan information: %s" ;;
       ret 0).

Definition _get_temp_tables (self : t) : Py Z :=
  try_except is_Exception
    (result <- execute_query (executor self)
                 "SHOW STATUS LIKE 'Created_tmp%'"
                 None false true ;;
     match result with
     | Some (Frame df) =>
         if in_columns "Value" df && negb (df_empty df)
         then int_iloc0 df "Value"
         else ret 0
     | _ => ret 0
     end)
    (fun e =>
       log_emit WARNING "Failed to get temp table information: %s" ;;
       ret 0).

Definition _get_memory_usage (self : t) : Py (option Z) :=
  try_except is_Exception
    (result <- execute_query (executor self)
                 "SHOW STATUS LIKE 'Memory_used'"
                 None false true ;;
     match result with
     | Some (Frame df) =>
         if in_columns "Value" df && negb (df_empty df)
         then z <- int_iloc0 df "Value" ;; ret (Some z)
         else ret None
     | _ => ret None
     end)
    (fun e =>
       log_emit WARNING "Failed to get memory usage information: %s" ;;
       ret None).

Definition collect_metrics (self : t) (query : string)
    (params : option Params) : Py (option QueryResult * QueryMetrics) :=
  (* Enable profiling *)
  execute_command (executor self) "SET profiling = 1" None ;;
  (* Execute query and measure time *)
  start_time <- time_time ;;
  result <- execute_query (executor self) query params true true ;;
  end_time <- time_time ;;
  let execution_time := (end_time - start_time)%Q in
  (* Get row count safely *)
  let row_count :=
    match result with Some (Frame df) => df_len df | _ => O end in
  (* Create metrics *)
  timestamp <- datetime_now ;;
  indexes_used <- _get_used_indexes self ;;
  table_scans <- _get_table_scans self ;;
  temp_tables <- _get_temp_tables self ;;
  memory_used <- _get_memory_usage self ;;
  ret (result,
       mkQueryMetrics query params execution_time row_count timestamp
                      indexes_used table_scans temp_tables memory_used).

End MySQLTelemetryCollector.

Module PostgreSQLTelemetryCollector.

Record t : Type := new {
  connection : Connection;
  executor : SafeQueryExecutor
}.

Definition _get_used_indexes (self : t) : Py (list Cell) :=
  try_except is_Exception
    (result <- execute_query (executor self)
                 "SELECT indexname FROM pg_indexes WHERE schemaname = current_schema()"
                 None false true ;;
     match result with
     | Some (Frame df) =>
         if in_columns "indexname" df
         then column_tolist df "indexname"
         else ret []
     | _ => ret []
     end)
    (fun e =>
       log_emit WARNING "Failed to get index information: %s" ;;
       ret []).

Definition _get_table_scans (self : t) : Py Z :=
  try_except is_Exception
    (result <- execute_query (executor self)
                 "SELECT COALESCE(sum(seq_scan), 0) as scans FROM pg_stat_all_tables"
                 None false true ;;
     match result with
     | Some (Frame df) =>
         if in_columns "scans" df && negb (df_empty df)
         then int_iloc0 df "scans"
         else ret 0
     | _ => ret 0
     end)
    (fun e =>
       log_emit WARNING "Failed to get table scan information: %s" ;;
       ret 0).

Definition _get_temp_tables (self : t) : Py Z :=
  try_except is_Exception
    (result <- execute_query (executor self)
                 "SELECT COALESCE(sum(temp_files), 0) as temp_tables FROM pg_stat_database"
                 None false true ;;
     match result with
     | Some (Frame df) =>
         if in_columns "temp_tables" df && negb (df_empty df)
         then int_iloc0 df "temp_tables"
         else ret 0
     | _ => ret 0
     end)
    (fun e =>
       log_emit WARNING "Failed to get temp table information: %s" ;;
       ret 0).

Definition _get_memory_usage (self : t) : Py (option Z) :=
  try_except is_Exception
    (result <- execute_query (executor self)
                 "SELECT setting::bigint * pg_size_bytes(unit) as bytes FROM pg_settings WHERE name = 'work_mem'"
                 None false true ;;
     match result with
     | Some (Frame df) =>
         if in_columns "bytes" df && negb (df_empty df)
         then z <- int_iloc0 df "bytes" ;; ret (Some z)
         else ret None
     | _ => ret None
     end)
    (fun e =>
       log_emit WARNING "Failed to get memory usage information: %s" ;;
       ret None).

Definition collect_metrics (self : t) (query : string)
    (params : option Params) : Py (option QueryResult * QueryMetrics) :=
  (* Enable timing *)
  execute_command (executor self) "SET log_statement_stats = on" None ;;
  (* Execute query and measure time *)
  start_time <- time_time ;;
  result <- execute_query (executor self) query params true true ;;
  end_time <- time_time ;;
  let execution_time := (end_time - start_time)%Q in
  (* Get row count safely *)
  let row_count :=
    match result with Some (Frame df) => df_len df | _ => O end in
  (* Create metrics *)
  timestamp <- datetime_now ;;
  indexes_used <- _get_used_indexes self ;;
  table_scans <- _get_table_scans self ;;
  temp_tables <- _get_temp_tables self ;;
  memory_used <- _get_memory_usage self ;;
  ret (result,
       mkQueryMetrics query params execution_time row_count timestamp
                      indexes_used table_scans temp_tables memory_used).

End PostgreSQLTelemetryCollector.

(* ------------------------------------------------------------------ *)
(** ** config.py: the backend enumeration; the factory of telemetry.py *)

Inductive DatabaseType : Type := MYSQL | POSTGRESQL.

(** What a caller can pass where a [DatabaseType] is expected: a member of
    the enumeration, or some other hashable value. *)
Inductive PyValue : Type :=
| VEnum (m : DatabaseType)
| VNone
| VInt (z : Z)
| VStr (s : string).

(** Key equality of the dictionary: enumeration members are equal only to
    themselves ([DatabaseType] is a plain [Enum]). *)
Definition value_eqb (a b : PyValue) : bool :=
  match a, b with
  | VEnum MYSQL, VEnum MYSQL => true
  | VEnum POSTGRESQL, VEnum POSTGRESQL => true
  | VNone, VNone => true
  | VInt x, VInt y => Z.eqb x y
  | VStr x, VStr y => String.eqb x y
  | _, _ => false
  end.

Definition value_str (v : PyValue) : string :=
  match v with
  | VEnum MYSQL => "DatabaseType.MYSQL"
  | VEnum POSTGRESQL => "DatabaseType.POSTGRESQL"
  | VNone => "None"
  | VInt z => DecimalString.NilZero.string_of_int (Z.to_int z)
  | VStr s => s
  end.

(** [dict.get(key)]. *)
Fixpoint dict_get {V : Type} (d : list (PyValue * V)) (key : PyValue)
    : option V :=
  match d with
  | [] => None
  | (k, v) :: rest => if value_eqb key k then Some v else dict_get rest key
  end.

Inductive TelemetryCollector : Type :=
| MySQL (c : MySQLTelemetryCollector.t)
| PostgreSQL (c : PostgreSQLTelemetryCollector.t).

Definition create_telemetry_collector (db_type : PyValue)
    (connection : Connection) (executor : SafeQueryExecutor)
    : Py TelemetryCollector :=
  let collectors :=
    [ (VEnum MYSQL,
       fun c e => MySQL (MySQLTelemetryCollector.new c e));
      (VEnum POSTGRESQL,
       fun c e => PostgreSQL (PostgreSQLTelemetryCollector.new c e)) ] in
  match dict_get collectors db_type with
  | None =>
      raise (ValueError
               ("Unsupported database type: " ++ value_str db_type)%string)
  | Some collector_class => ret (collector_class connection executor)
  end.

(** [collector.collect_metrics(query, params)], dispatched on the class. *)
Definition collect_metrics (collector : TelemetryCollector) (query : string)
    (params : option Params) : Py (option QueryResult * QueryMetrics) :=
  match collector with
  | MySQL c => MySQLTelemetryCollector.collect_metrics c query params
  | PostgreSQL c => PostgreSQLTelemetryCollector.collect_metrics c query params
  end.

(* ------------------------------------------------------------------ *)
(** ** config.py: the configuration records and their validation *)

Module Config.

(** A value as a configuration field receives it, from a caller or from a
    JSON file: fields are not typed at run time. *)
Inductive Obj : Type :=
| ONone
| OBool (b : bool)
| OInt (z : Z)
| OStr (s : string).

(** What validation can raise: [DatabaseConfigError], and the [TypeError]
    of a comparison between a non-number and an [int]. *)
Inductive Exc : Type :=
| DatabaseConfigError (message : string)
| TypeError (message : string).

Inductive Checked (A : Type) : Type :=
| Ok (a : A)
| Fail (e : Exc).
Arguments Ok {A} a.
Arguments Fail {A} e.

Definition and_then {A B : Type} (m : Checked A) (k : A -> Checked B)
    : Checked B :=
  match m with
  | Ok a => k a
  | Fail e => Fail e
  end.

(** [bool(x)]. *)
Definition truthy (x : Obj) : bool :=
  match x with
  | ONone => false
  | OBool b => b
  | OInt z => negb (z =? 0)%Z
  | OStr s => negb (String.eqb s "")
  end.

(** [isinstance(x, str)]. *)
Definition is_str (x : Obj) : bool :=
  match x with OStr _ => true | _ => false end.

(** [isinstance(x, int)]; [bool] is a subclass of [int]. *)
Definition is_int (x : Obj) : bool :=
  match x with OInt _ | OBool _ => true | _ => false end.

(** [x is None]. *)
Definition is_none (x : Obj) : bool :=
  match x with ONone => true | _ => false end.

(** The integer a number stands for in a comparison. *)
Definition number (x : Obj) : option Z :=
  match x with
  | OInt z => Some z
  | OBool b => Some (if b then 1 else 0)
  | _ => None
  end.

Definition type_name (x : Obj) : string :=
  match x with
  | ONone => "NoneType"
  | OBool _ => "bool"
  | OInt _ => "int"
  | OStr _ => "str"
  end.

(** [x < n] and [x > n] for an integer [n]. *)
Definition lt (x : Obj) (n : Z) : Checked bool :=
  match number x with
  | Some z => Ok (z <? n)%Z
  | None =>
      Fail (TypeError ("'<' not supported between instances of '"
                         ++ type_name x ++ "' and 'int'")%string)
  end.

Definition gt (x : Obj) (n : Z) : Checked bool :=
  match number x with
  | Some z => Ok (z >? n)%Z
  | None =>
      Fail (TypeError ("'>' not supported between instances of '"
                         ++ type_name x ++ "' and 'int'")%string)
  end.

(** [str(x)], as an f-string renders it. *)
Definition obj_str (x : Obj) : string :=
  match x with
  | ONone => "None"
  | OBool true => "True"
  | OBool false => "False"
  | OInt z => DecimalString.NilZero.string_of_int (Z.to_int z)
  | OStr s => s
  end.

Module SSLConfig.

Record t : Type := new {
  enabled : bool;
  verify_cert : bool;
  ca_cert : option string;
  client_cert : option string;
  client_key : option string;
  cipher : option string
}.

Definition default : t := new false true None None None None.

End SSLConfig.

Module MySQLSpecificConfig.

Record t : Type := new {
  ssl : option SSLConfig.t;
  init_command : option string;
  autocommit : bool;
  local_infile : bool;
  compress : bool
}.

Definition default : t := new (Some SSLConfig.default) None false false false.

End MySQLSpecificConfig.

Module PostgreSQLSpecificConfig.

Record t : Type := new {
  ssl : option SSLConfig.t;
  schema : string;
  application_name : string;
  sslmode : string;
  target_session_attrs : string;
  async_io : bool
}.

Definition default : t :=
  new (Some SSLConfig.default) "public" "dbframework" "prefer" "any" false.

End PostgreSQLSpecificConfig.

Definition DEFAULT_CHARSET : string := "utf8".
Definition DEFAULT_POOL_SIZE : Z := 5.
Definition DEFAULT_MAX_OVERFLOW : Z := 10.
Definition DEFAULT_TIMEOUT : Z := 30.

Definition valid_sslmodes : list string :=
  ["disable"; "allow"; "prefer"; "require"; "verify-ca"; "verify-full"].

Module DatabaseConfig.

Record t : Type := new {
  db_type : PyValue;
  user : Obj;
  password : Obj;
  host : Obj;
  port : Obj;
  database : Obj;
  charset : Obj;
  pool_size : Obj;
  max_overflow : Obj;
  pool_timeout : Obj;
  mysql_config : option MySQLSpecificConfig.t;
  postgresql_config : option PostgreSQLSpecificConfig.t
}.

Definition _validate_base_config (self : t) : Checked unit :=
  if negb (truthy (user self)) || negb (is_str (user self))
  then Fail (DatabaseConfigError "Invalid username")
  else if negb (truthy (password self)) || negb (is_str (password self))
  then Fail (DatabaseConfigError "Invalid password")
  else if negb (truthy (host self)) || negb (is_str (host self))
  then Fail (DatabaseConfigError "Invalid host")
  else
    and_then
      (if negb (is_int (port self)) then Ok true
       else and_then (lt (port self) 1) (fun low =>
            if low then Ok true else gt (port self) 65535))
      (fun bad_port =>
    if bad_port then Fail (DatabaseConfigError "Invalid port number")
    else if negb (is_none (database self)) && negb (is_str (database self))
    then Fail (DatabaseConfigError "Invalid database name")
    else
      and_then (lt (pool_size self) 1) (fun small_pool =>
      if small_pool
      then Fail (DatabaseConfigError "Pool size must be positive")
      else
        and_then (lt (max_overflow self) 0) (fun negative_overflow =>
        if negative_overflow
        then Fail (DatabaseConfigError "Max overflow must be non-negative")
        else
          and_then (lt (pool_timeout self) 1) (fun small_timeout =>
          if small_timeout
          then Fail (DatabaseConfigError "Pool timeout must be positive")
          else Ok tt)))).

Definition _validate_mysql_config (self : t) : Checked unit :=
  match mysql_config self with
  | Some mc =>
      match MySQLSpecificConfig.ssl mc with
      | Some ssl =>
          if SSLConfig.enabled ssl && SSLConfig.verify_cert ssl
             && match SSLConfig.ca_cert ssl with
                | Some path => String.eqb path ""
                | None => true
                end
          then Fail (DatabaseConfigError
                       "CA certificate required when SSL verification is enabled")
          else Ok tt
      | None => Ok tt
      end
  | None => Ok tt
  end.

Section SetRepr.

(** How the interpreter prints the set of valid modes inside the error
    message: the order of a set's elements depends on the hash seed of the
    process. *)
Variable valid_sslmodes_repr : string.

Definition _validate_postgresql_config (self : t) : Checked unit :=
  match postgresql_config self with
  | Some pc =>
      if negb (existsb (String.eqb (PostgreSQLSpecificConfig.sslmode pc))
                 valid_sslmodes)
      then Fail (DatabaseConfigError
                   ("Invalid sslmode. Must be one of: "
                      ++ valid_sslmodes_repr)%string)
      else Ok tt
  | None => Ok tt
  end.

Definition _validate_db_specific_config (self : t) : Checked unit :=
  if value_eqb (db_type self) (VEnum MYSQL)
  then _validate_mysql_config self
  else if value_eqb (db_type self) (VEnum POSTGRESQL)
  then _validate_postgresql_config self
  else Ok tt.

Definition __post_init__ (self : t) : Checked unit :=
  and_then (_validate_base_config self) (fun _ =>
  _validate_db_specific_config self).

(** [DatabaseConfig(...)]: the record, once [__post_init__] has passed. *)
Definition init (self : t) : Checked t :=
  and_then (__post_init__ self) (fun _ => Ok self).

End SetRepr.

End DatabaseConfig.

End Config.

(* ------------------------------------------------------------------ *)
(** ** What the connection sees *)

(** [after w l w']: from [w] to [w'] exactly the statements [l] were sent,
    the clock was not read, and the interpreter is the same. *)
Definition after (w : World) (l : list Statement) (w' : World) : Prop :=
  sent w' = sent w ++ l /\
  clock_reads w' = clock_reads w /\
  wall_clock w' = wall_clock w /\
  int_of_text w' = int_of_text w.

(** The response that makes a read fall back to a second [execute]: the
    statement was executed and has no result set to fetch.  (An exception of
    the connection never does: [pd.read_sql] raises it as, or inside, an
    exception that is no [ResourceClosedError].) *)
Definition retried (r : Response) : bool :=
  match r with
  | NoRows => true
  | Rows _ | Fails _ => false
  end.

Definition rejected (r : Response) : bool :=
  match r with Fails _ => true | _ => false end.

(** The statements a read of [s] puts on the wire after history [h]. *)
Definition traffic (c : Connection) (h : list Statement) (s : Statement)
    : list Statement :=
  if retried (respond c h s) then [s; s] else [s].

(** Whether a read of [s] after history [h] goes through: rows at once,
    or, after the "no result set" signal, an accepted second [execute]. *)
Definition accepts (c : Connection) (h : list Statement) (s : Statement)
    : bool :=
  match respond c h s with
  | Rows _ => true
  | r => retried r && negb (rejected (respond c (h ++ [s]) s))
  end.

(** The history after the reads [l], made in turn from history [h]. *)
Fixpoint after_reads (c : Connection) (h : list Statement)
    (l : list Statement) : list Statement :=
  match l with
  | [] => h
  | s :: t => after_reads c (h ++ traffic c h s) t
  end.

(** The pattern shared by the eight harvest probes. *)
Definition lenient_probe {A : Type} (ex : SafeQueryExecutor) (sql : string)
    (extract : DataFrame -> Py A) (default : A) (warning : string) : Py A :=
  try_except is_Exception
    (result <- execute_query ex sql None false true ;;
     match result with
     | Some (Frame df) => extract df
     | _ => ret default
     end)
    (fun e => log_emit WARNING warning ;; ret default).

(** The extraction step of the six counter probes. *)
Definition first_int (label : string) (df : DataFrame) : Py Z :=
  if in_columns label df && negb (df_empty df)
  then int_iloc0 df label
  else ret 0.

(** [int(x)] without the monad, under a given interpreter. *)
Definition int_value (interpreter : string -> option Z) (x : Cell)
    : option Z :=
  match x with
  | CInt z => Some z
  | CReal x => Some (Z.quot (Qnum x) (Zpos (Qden x)))
  | CBool b => Some (if b then 1 else 0)
  | CStr s => str_to_int interpreter s
  | CNaN | CNull => None
  end.

(** The integer a counter probe takes from a result set: the value in the
    first row under the label, when the label names exactly one column and
    the value converts. *)
Definition first_row_value (interpreter : string -> option Z)
    (label : string) (df : DataFrame) : option Z :=
  match rows df with
  | row :: _ =>
      if (occurrences label df =? 1)%nat
      then int_value interpreter (cell_at label df row)
      else None
  | [] => None
  end.

(** The values an index probe takes from a result set: the column under
    the label, top to bottom, when the label names exactly one column. *)
Definition column_values (label : string) (df : DataFrame) : list Cell :=
  if (occurrences label df =? 1)%nat
  then map (cell_at label df) (rows df)
  else [].

(** What each kind of probe makes of the connection's answer. *)
Definition indexes_read (label : string) (r : Response) : list Cell :=
  match r with Rows df => column_values label df | _ => [] end.

Definition counter_read (interpreter : string -> option Z) (label : string)
    (r : Response) : Z :=
  match r with
  | Rows df =>
      match first_row_value interpreter label df with
      | Some z => z
      | None => 0
      end
  | _ => 0
  end.

Definition memory_read (interpreter : string -> option Z) (label : string)
    (r : Response) : option Z :=
  match r with
  | Rows df => first_row_value interpreter label df
  | _ => None
  end.

(** A result set as pandas holds it: every row has one cell per column,
    and its integers are within the range in which an integer stays exact
    when pandas stores it, or hands it out in a row, as a float. *)
Definition small_int (x : Cell) : Prop :=
  match x with
  | CInt z => - 2 ^ 53 <= z <= 2 ^ 53
  | _ => True
  end.

Definition tidy (df : DataFrame) : Prop :=
  Forall (fun row => length row = length (columns df) /\ Forall small_int row)
    (rows df).

(** The statement table of each backend, as the specification lists it. *)
Definition arm_statement (b : DatabaseType) : string :=
  match b with
  | MYSQL => "SET profiling = 1"
  | POSTGRESQL => "SET log_statement_stats = on"
  end.

Definition harvest_statements (b : DatabaseType) : list string :=
  match b with
  | MYSQL =>
      [ "SELECT index_name FROM information_schema.statistics WHERE table_schema = DATABASE()";
        "SHOW STATUS LIKE 'Handler_read%'";
        "SHOW STATUS LIKE 'Created_tmp%'";
        "SHOW STATUS LIKE 'Memory_used'" ]
  | POSTGRESQL =>
      [ "SELECT indexname FROM pg_indexes WHERE schemaname = current_schema()";
        "SELECT COALESCE(sum(seq_scan), 0) as scans FROM pg_stat_all_tables";
        "SELECT COALESCE(sum(temp_files), 0) as temp_tables FROM pg_stat_database";
        "SELECT setting::bigint * pg_size_bytes(unit) as bytes FROM pg_settings WHERE name = 'work_mem'" ]
  end.

Definition probe (sql : string) : Statement := mkStatement sql None.

Definition variant (col : TelemetryCollector) : DatabaseType :=
  match col with MySQL _ => MYSQL | PostgreSQL _ => POSTGRESQL end.

Definition executor_of (col : TelemetryCollector) : SafeQueryExecutor :=
  match col with
  | MySQL c => MySQLTelemetryCollector.executor c
  | PostgreSQL c => PostgreSQLTelemetryCollector.executor c
  end.

(** The connection the collector's statements go to. *)
Definition wire (col : TelemetryCollector) : Connection :=
  connection (executor_of col).

(** The spec's [UnsupportedBackend]: the [ValueError] of the factory. *)
Definition is_UnsupportedBackend (e : PyExc) : bool :=
  match e with
  | ValueError msg => String.prefix "Unsupported database type: " msg
  | _ => false
  end.

(** The extraction steps of the index and memory probes. *)
Definition index_step (label : string) (df : DataFrame) : Py (list Cell) :=
  if in_columns label df then column_tolist df label else ret [].

Definition memory_step (label : string) (df : DataFrame) : Py (option Z) :=
  if in_columns label df && negb (df_empty df)
  then z <- int_iloc0 df label ;; ret (Some z)
  else ret None.

(** The column each probe reads, per backend. *)
Definition index_label (b : DatabaseType) : string :=
  match b with MYSQL => "index_name" | POSTGRESQL => "indexname" end.

Definition scans_label (b : DatabaseType) : string :=
  match b with MYSQL => "Value" | POSTGRESQL => "scans" end.

Definition temp_label (b : DatabaseType) : string :=
  match b with MYSQL => "Value" | POSTGRESQL => "temp_tables" end.

Definition memory_label (b : DatabaseType) : string :=
  match b with MYSQL => "Value" | POSTGRESQL => "bytes" end.

Definition harvest_statement (b : DatabaseType) (i : nat) : string :=
  nth i (harvest_statements b) "".

(** The statements that have reached connection [c] when a collector of
    backend [b], called with query [q] and parameters [p] after history
    [h], sends its harvest probe number [k] (counted from 0): the arm
    statement, what the read of the primary query sent, and what the reads
    of the probes before it sent. *)
Definition harvest_history (c : Connection) (b : DatabaseType)
    (h : list Statement) (q : string) (p : option Params) (k : nat)
    : list Statement :=
  after_reads c (h ++ [probe (arm_statement b)])
    (mkStatement q p :: firstn k (map probe (harvest_statements b))).

(** The table-driven collector of the specification: arm, measure, then
    the four harvest probes of the backend's table.  [collect_metrics] of
    either class is shown below to be this function at its variant. *)
Definition collect_with (ex : SafeQueryExecutor) (b : DatabaseType)
    (query : string) (params : option Params)
    : Py (option QueryResult * QueryMetrics) :=
  execute_command ex (arm_statement b) None ;;
  start_time <- time_time ;;
  result <- execute_query ex query params true true ;;
  end_time <- time_time ;;
  timestamp <- datetime_now ;;
  indexes_used <-
    lenient_probe ex (harvest_statement b 0) (index_step (index_label b)) []
      "Failed to get index information: %s" ;;
  table_scans <-
    lenient_probe ex (harvest_statement b 1) (first_int (scans_label b)) 0
      "Failed to get table scan information: %s" ;;
  temp_tables <-
    lenient_probe ex (harvest_statement b 2) (first_int (temp_label b)) 0
      "Failed to get temp table information: %s" ;;
  memory_used <-
    lenient_probe ex (harvest_statement b 3) (memory_step (memory_label b))
      None "Failed to get memory usage information: %s" ;;
  ret (result,
       mkQueryMetrics query params (end_time - start_time)%Q
         match result with Some (Frame df) => df_len df | _ => O end
         timestamp indexes_used table_scans temp_tables memory_used).

(** *** Stub connections and start worlds, for the examples *)

Definition three_rows : DataFrame :=
  mkDataFrame ["id"] [[CInt 1]; [CInt 2]; [CInt 3]].

(** Answers every statement with the same result set. *)
Definition stub_rows (df : DataFrame) : Connection :=
  mkConnection (fun _ _ => Rows df).

(** Rejects every statement. *)
Definition stub_down : Connection :=
  mkConnection (fun _ _ => Fails (DriverError "server has gone away")).

(** Never has a result set to fetch. *)
Definition stub_no_rows : Connection :=
  mkConnection (fun _ _ => NoRows).

(** Accepts the first [n] statements (no rows for the first, [df]
    afterwards) and rejects all later ones. *)
Definition stub_rejecting_after (n : nat) (df : DataFrame) : Connection :=
  mkConnection (fun h _ =>
    match h with
    | [] => if (0 <? n)%nat then NoRows else Fails (DriverError "rejected")
    | _ :: _ =>
        if (length h <? n)%nat then Rows df
        else Fails (DriverError "rejected")
    end).

(** Rejects the very first statement and answers the others with [df]. *)
Definition stub_rejecting_first (df : DataFrame) : Connection :=
  mkConnection (fun h _ =>
    match h with
    | [] => Fails (DriverError "access denied")
    | _ :: _ => Rows df
    end).

(** Answers the first two statements with [df] and every later one with
    an empty result set. *)
Definition stub_rows_then_empty (df : DataFrame) : Connection :=
  mkConnection (fun h _ =>
    if (length h <? 2)%nat then Rows df else Rows (mkDataFrame [] [])).

(** Executes the first [n] statements, none of which has a result set, and
    rejects all later ones: a connection lost after [n] commands. *)
Definition stub_lost_after (n : nat) : Connection :=
  mkConnection (fun h _ =>
    if (length h <? n)%nat then NoRows
    else Fails (DriverError "server has gone away")).

(** A table with a unique key: an [INSERT] is executed the first time and
    refused when the same statement comes again; [SET] is executed or
    denied, as [set_allowed] says; everything else is answered with
    [df]. *)
Definition stub_unique_key (set_allowed : bool) (df : DataFrame)
    : Connection :=
  mkConnection (fun h s =>
    if String.prefix "INSERT" (text s) then
      if existsb (fun s' => String.eqb (text s') (text s)) h
      then Fails (DriverError "Duplicate entry '1' for key 'PRIMARY'")
      else NoRows
    else if String.prefix "SET" (text s) then
      if set_allowed then NoRows else Fails (DriverError "access denied")
    else Rows df).

(** Has no result set for a statement that comes for the first time, and
    answers its repetition with [df]. *)
Definition stub_rows_on_repetition (df : DataFrame) : Connection :=
  mkConnection (fun h s =>
    if existsb (fun s' => String.eqb (text s') (text s)) h
    then Rows df
    else NoRows).

(** [SHOW STATUS] answers: a variable and its value, as text. *)
Definition status_row (value : string) : DataFrame :=
  mkDataFrame ["Variable_name"; "Value"] [[CStr "Handler_read_first"; CStr value]].

(** A clock that reads [n] seconds at its [n]-th reading; the texts of the
    examples are plain, so the interpreter is not consulted. *)
Definition world0 : World :=
  mkWorld [] 0 (fun n => inject_Z (Z.of_nat n)) (fun _ => None) [].

(** A clock that is set back by a second between any two readings. *)
Definition world_clock_set_back : World :=
  mkWorld [] 0 (fun n => inject_Z (- Z.of_nat n)) (fun _ => None) [].

Definition mysql_on (c : Connection) : TelemetryCollector :=
  MySQL (MySQLTelemetryCollector.new c (mkSafeQueryExecutor c)).

Definition postgresql_on (c : Connection) : TelemetryCollector :=
  PostgreSQL (PostgreSQLTelemetryCollector.new c (mkSafeQueryExecutor c)).

(* ------------------------------------------------------------------ *)
(** ** connectors/mysql.py, connectors/postgresql.py, factory.py *)

(** [sqlalchemy.engine.Engine], by the URL it was created for. *)
Inductive Engine : Type := mkEngine (url : string).

(** [for x in l: body(x)]. *)
Fixpoint for_each {A : Type} (l : list A) (body : A -> Py unit) : Py unit :=
  match l with
  | [] => ret tt
  | x :: rest => body x ;; for_each rest body
  end.

(** [dict[key]] on a dictionary with string keys, [None] when absent. *)
Fixpoint lookup {V : Type} (d : list (string * V)) (key : string) : option V :=
  match d with
  | [] => None
  | (k, v) :: rest => if String.eqb key k then Some v else lookup rest key
  end.

Module MySQLConnector.

Record t : Type := new {
  config : Config.DatabaseConfig.t;
  _engine : option Engine;
  _connection : option Connection
}.

Definition __init__ (config : Config.DatabaseConfig.t) : t :=
  new config None None.

Definition _build_connection_string (self : t) : string :=
  let conn_string :=
    ("mysql+pymysql://"
       ++ Config.obj_str (Config.DatabaseConfig.user (config self)) ++ ":"
       ++ Config.obj_str (Config.DatabaseConfig.password (config self)) ++ "@"
       ++ Config.obj_str (Config.DatabaseConfig.host (config self)) ++ ":"
       ++ Config.obj_str (Config.DatabaseConfig.port (config self)) ++ "/")%string in
  let conn_string :=
    if Config.truthy (Config.DatabaseConfig.database (config self))
    then (conn_string
            ++ Config.obj_str (Config.DatabaseConfig.database (config self)))%string
    else conn_string in
  (conn_string ++ "?charset="
     ++ Config.obj_str (Config.DatabaseConfig.charset (config self)))%string.

End MySQLConnector.

Module PostgreSQLConnector.

Record t : Type := new {
  config : Config.DatabaseConfig.t;
  _engine : option Engine;
  _connection : option Connection;
  ssl_mode : string;
  application_name : string;
  connect_timeout : Z
}.

Definition __init__ (config : Config.DatabaseConfig.t) : t :=
  new config None None "prefer" "dbframework" 10.

Definition _get_connect_args (self : t) : list (string * Config.Obj) :=
  [ ("sslmode", Config.OStr (ssl_mode self));
    ("application_name", Config.OStr (application_name self));
    ("connect_timeout", Config.OInt (connect_timeout self));
    ("client_encoding", Config.DatabaseConfig.charset (config self));
    ("options", Config.OStr "-c timezone=UTC") ].

Definition session_settings : list string :=
  [ "SET statement_timeout = '300000'";
    "SET row_security = on";
    "SET search_path = public";
    "SET TRANSACTION ISOLATION LEVEL READ COMMITTED" ].

Definition _configure_session (self : t) : Py unit :=
  match _connection self with
  | Some conn =>
      let settings := session_settings in
      for_each settings (fun setting =>
        try_except is_Exception
          (connection_execute conn setting None ;; ret tt)
          (fun e =>
             log_emit WARNING "Failed to set session parameter: %s"))
  | None => ret tt
  end.

Definition listen_notify (self : t) (channel : string) : Py unit :=
  match _connection self with
  | Some conn =>
      try_except is_Exception
        (connection_execute conn ("LISTEN " ++ channel)%string None ;; ret tt)
        (fun e =>
           log_emit ERROR "Failed to set up LISTEN on channel %s: %s" ;;
           raise e)
  | None => ret tt
  end.

End PostgreSQLConnector.

(** A connector of either class. *)
Inductive DatabaseConnector : Type :=
| MySQLC (c : MySQLConnector.t)
| PostgreSQLC (c : PostgreSQLConnector.t).

Module DatabaseFactory.

Definition create_connector (config : Config.DatabaseConfig.t)
    : Outcome DatabaseConnector :=
  let connectors :=
    [ (VEnum MYSQL, fun cfg => MySQLC (MySQLConnector.__init__ cfg));
      (VEnum POSTGRESQL,
       fun cfg => PostgreSQLC (PostgreSQLConnector.__init__ cfg)) ] in
  match dict_get connectors (Config.DatabaseConfig.db_type config) with
  | None =>
      Raised (ValueError
                ("Unsupported database type: "
                   ++ value_str (Config.DatabaseConfig.db_type config))%string)
  | Some connector_class => Returned (connector_class config)
  end.

End DatabaseFactory.

(** The configuration a connector was built from. *)
Definition connector_config (c : DatabaseConnector) : Config.DatabaseConfig.t :=
  match c with
  | MySQLC m => MySQLConnector.config m
  | PostgreSQLC g => PostgreSQLConnector.config g
  end.

(** A connector that holds neither an engine nor a connection. *)
Definition unconnected (c : DatabaseConnector) : Prop :=
  match c with
  | MySQLC m =>
      MySQLConnector._engine m = None /\ MySQLConnector._connection m = None
  | PostgreSQLC g =>
      PostgreSQLConnector._engine g = None /\
      PostgreSQLConnector._connection g = None
  end.

Definition connector_variant (c : DatabaseConnector) : DatabaseType :=
  match c with MySQLC _ => MYSQL | PostgreSQLC _ => POSTGRESQL end.

(* ------------------------------------------------------------------ *)
(** ** database.py: the facade *)

(** The methods the two collector classes of telemetry.py define. *)
Definition collector_methods : list string :=
  [ "__init__"; "collect_metrics"; "_get_used_indexes"; "_get_table_scans";
    "_get_temp_tables"; "_get_memory_usage" ].

Definition class_name (collector : TelemetryCollector) : string :=
  match collector with
  | MySQL _ => "MySQLTelemetryCollector"
  | PostgreSQL _ => "PostgreSQLTelemetryCollector"
  end.

(** [collector.<name>(...)] for a name that is none of [collector_methods]:
    the attribute lookup fails before anything is called. *)
Definition call_undefined {A : Type} (collector : TelemetryCollector)
    (name : string) : Py A :=
  raise (AttributeError
           ("'" ++ class_name collector ++ "' object has no attribute '"
              ++ name ++ "'")%string).

(** What [select] returns: the result alone, or the result with its
    metrics. *)
Inductive Selected : Type :=
| Plain (result : option QueryResult)
| WithMetrics (pair : option QueryResult * QueryMetrics).

Module Database.

Record t : Type := new {
  config : Config.DatabaseConfig.t;
  connector : DatabaseConnector
}.

Definition __init__ (config : Config.DatabaseConfig.t) : Outcome t :=
  match DatabaseFactory.create_connector config with
  | Returned connector => Returned (new config connector)
  | Raised e => Raised e
  end.

Section Connectors.

(** The two methods of the connector interface (connectors/base.py) that
    the facade calls, as the connectors in use implement them. *)
Variable get_connection : DatabaseConnector -> Py Connection.
Variable close_connection : DatabaseConnector -> Py unit.

(** [with self._managed_connection() as connection: body]:
    [try: connection = get_connection(); yield connection
     finally: close_connection()]. *)
Definition _managed_connection {A : Type} (self : t)
    (body : Connection -> Py A) : Py A :=
  fun w =>
    let (outcome, w1) :=
      (connection <- get_connection (connector self) ;; body connection) w in
    match close_connection (connector self) w1 with
    | (Returned _, w2) => (outcome, w2)
    | (Raised e, w2) => (Raised e, w2)
    end.

Definition select (self : t) (query : string) (params : option Params)
    (capture_telemetry : bool) : Py Selected :=
  _managed_connection self (fun connection =>
    let executor := mkSafeQueryExecutor connection in
    if capture_telemetry then
      collector <- create_telemetry_collector
                     (Config.DatabaseConfig.db_type (config self))
                     connection executor ;;
      pair <- collect_metrics collector query params ;;
      ret (WithMetrics pair)
    else
      result <- execute_query executor query params true true ;;
      ret (Plain result)).

Definition get_performance_metrics (self : t) : Py (list (string * Cell)) :=
  _managed_connection self (fun connection =>
    collector <- create_telemetry_collector
                   (Config.DatabaseConfig.db_type (config self))
                   connection (mkSafeQueryExecutor connection) ;;
    call_undefined collector "get_resource_usage").

Definition analyze_query (self : t) (query : string)
    (params : option Params) : Py (list (string * Cell)) :=
  _managed_connection self (fun connection =>
    collector <- create_telemetry_collector
                   (Config.DatabaseConfig.db_type (config self))
                   connection (mkSafeQueryExecutor connection) ;;
    call_undefined collector "get_execution_plan").

End Connectors.

End Database.

(** A connector interface for the examples: the connection is always
    there, and closing always works. *)
Definition always_connected (c : Connection) (_ : DatabaseConnector)
    : Py Connection := ret c.

Definition closes_quietly (_ : DatabaseConnector) : Py unit := ret tt.

(** *** What a valid configuration is, field by field *)

Definition nonempty_str (x : Config.Obj) : Prop :=
  exists s, x = Config.OStr s /\ s <> "".

(** A number (an [int] or a [bool]) that is at least [lo]. *)
Definition number_from (lo : Z) (x : Config.Obj) : Prop :=
  exists z, Config.number x = Some z /\ lo <= z.

Definition port_number (x : Config.Obj) : Prop :=
  exists z, Config.number x = Some z /\ 1 <= z <= 65535.

Definition none_or_str (x : Config.Obj) : Prop :=
  x = Config.ONone \/ exists s, x = Config.OStr s.

Definition base_fields_ok (cfg : Config.DatabaseConfig.t) : Prop :=
  nonempty_str (Config.DatabaseConfig.user cfg) /\
  nonempty_str (Config.DatabaseConfig.password cfg) /\
  nonempty_str (Config.DatabaseConfig.host cfg) /\
  port_number (Config.DatabaseConfig.port cfg) /\
  none_or_str (Config.DatabaseConfig.database cfg) /\
  number_from 1 (Config.DatabaseConfig.pool_size cfg) /\
  number_from 0 (Config.DatabaseConfig.max_overflow cfg) /\
  number_from 1 (Config.DatabaseConfig.pool_timeout cfg).

(** The rule of the selected backend: for MySQL, verified SSL names a CA
    certificate; for PostgreSQL, the SSL mode is one of the six known. *)
Definition backend_fields_ok (cfg : Config.DatabaseConfig.t) : Prop :=
  match Config.DatabaseConfig.db_type cfg with
  | VEnum MYSQL =>
      forall mc ssl,
        Config.DatabaseConfig.mysql_config cfg = Some mc ->
        Config.MySQLSpecificConfig.ssl mc = Some ssl ->
        Config.SSLConfig.enabled ssl = true ->
        Config.SSLConfig.verify_cert ssl = true ->
        exists path, Config.SSLConfig.ca_cert ssl = Some path /\ path <> ""
  | VEnum POSTGRESQL =>
      forall pc,
        Config.DatabaseConfig.postgresql_config cfg = Some pc ->
        In (Config.PostgreSQLSpecificConfig.sslmode pc) Config.valid_sslmodes
  | _ => True
  end.

(** The messages of [_validate_base_config]. *)
Definition base_messages : list string :=
  [ "Invalid username"; "Invalid password"; "Invalid host";
    "Invalid port number"; "Invalid database name";
    "Pool size must be positive"; "Max overflow must be non-negative";
    "Pool timeout must be positive" ].

(** The configuration of the loader's minimal MySQL example. *)
Definition minimal_mysql_config : Config.DatabaseConfig.t :=
  Config.DatabaseConfig.new (VEnum MYSQL)
    (Config.OStr "user") (Config.OStr "pass") (Config.OStr "localhost")
    (Config.OInt 3306) Config.ONone (Config.OStr Config.DEFAULT_CHARSET)
    (Config.OInt Config.DEFAULT_POOL_SIZE)
    (Config.OInt Config.DEFAULT_MAX_OVERFLOW)
    (Config.OInt Config.DEFAULT_TIMEOUT)
    (Some Config.MySQLSpecificConfig.default)
    (Some Config.PostgreSQLSpecificConfig.default).

(** A PostgreSQL configuration that asks for SSL mode "verify-full". *)
Definition verified_postgresql_config : Config.DatabaseConfig.t :=
  Config.DatabaseConfig.new (VEnum POSTGRESQL)
    (Config.OStr "user") (Config.OStr "pass") (Config.OStr "localhost")
    (Config.OInt 5432) Config.ONone (Config.OStr Config.DEFAULT_CHARSET)
    (Config.OInt Config.DEFAULT_POOL_SIZE)
    (Config.OInt Config.DEFAULT_MAX_OVERFLOW)
    (Config.OInt Config.DEFAULT_TIMEOUT)
    (Some Config.MySQLSpecificConfig.default)
    (Some (Config.PostgreSQLSpecificConfig.new (Some Config.SSLConfig.default)
             "public" "dbframework" "verify-full" "any" false)).

(** One or two copies of a statement. *)
Definition once_or_twice (s : Statement) (l : list Statement) : Prop :=
  l = [s] \/ l = [s; s].

Ltac run_py :=
  unfold execute_query, try_except, bind, log_emit, connection_execute,
    pd_read_sql, ret, raise, is_Exception; simpl.

Ltac frame_done :=
  unfold after, deliver; simpl; rewrite <- ?app_assoc; simpl; auto.

(* ------------------------------------------------------------------ *)
(** ** The monad *)

Lemma bind_returned {A B} (m : Py A) (k : A -> Py B) (w w' : World) (a : A) :
  m w = (Returned a, w') -> bind m k w = k a w'.
Proof. unfold bind. intros ->. reflexivity. Qed.

Lemma bind_raised {A B} (m : Py A) (k : A -> Py B) (w w' : World) (e : PyExc) :
  m w = (Raised e, w') -> bind m k w = (Raised e, w').
Proof. unfold bind. intros ->. reflexivity. Qed.

(* ------------------------------------------------------------------ *)
(** ** The executor *)

(** What [pd.read_sql] raises for an exception of the connection is never a
    [ResourceClosedError]. *)
Lemma execution_failed_not_closed (sql : string) (e : PyExc) :
  is_ResourceClosedError (execution_failed sql e) = false.
Proof. destruct e; reflexivity. Qed.

(** Without results wanted the statement goes to the connection once; a
    failure is raised as [QueryExecutionError] or swallowed into [None]. *)
Lemma execute_query_command (self : SafeQueryExecutor) (q : string)
    (p : option Params) (rof : bool) (w : World) :
  exists w',
    after w [mkStatement q p] w' /\
    match respond (connection self) (sent w) (mkStatement q p) with
    | Rows df =>
        execute_query self q p rof false w
        = (Returned (Some (Ack (mkResult (Some df)))), w')
    | NoRows =>
        execute_query self q p rof false w
        = (Returned (Some (Ack (mkResult None))), w')
    | Fails e =>
        if rof
        then exists msg,
            execute_query self q p rof false w
            = (Raised (QueryExecutionError msg e), w')
        else execute_query self q p rof false w = (Returned None, w')
    end.
Proof.
  run_py.
  destruct (respond (connection self) (sent w) (mkStatement q p)) as [df | | e];
    simpl.
  - eexists; split; [|reflexivity]; frame_done.
  - eexists; split; [|reflexivity]; frame_done.
  - destruct rof; simpl; eexists; (split; [|eauto]); frame_done.
Qed.

(** With results wanted: the traffic is [traffic], the call goes through
    exactly when the connection [accepts] the read, a frame is returned
    exactly for a result set, and a failure is raised as
    [QueryExecutionError] or swallowed into [None]. *)
Lemma execute_query_read (self : SafeQueryExecutor) (q : string)
    (p : option Params) (rof : bool) (w : World) (h : list Statement) :
  sent w = h ->
  let c := connection self in
  let s := mkStatement q p in
  exists w',
    after w (traffic c h s) w' /\
    if accepts c h s
    then exists r,
        execute_query self q p rof true w = (Returned (Some r), w') /\
        match respond c h s with
        | Rows df => r = Frame df
        | _ => exists a, r = Ack a
        end
    else if rof
    then exists msg e,
        execute_query self q p rof true w
        = (Raised (QueryExecutionError msg e), w')
    else execute_query self q p rof true w = (Returned None, w').
Proof.
  intros <- c s. subst c s. unfold traffic, accepts. run_py.
  destruct (respond (connection self) (sent w) (mkStatement q p))
    as [df | | e] eqn:R1; cbn [retried rejected andb negb].
  - simpl. eexists; split; [|eexists; split; eauto]; frame_done.
  - simpl.
    destruct (respond (connection self) (sent w ++ [mkStatement q p])
                (mkStatement q p)) as [df | | e] eqn:R2; simpl.
    + eexists; split; [|eexists; split; eauto]; frame_done.
    + eexists; split; [|eexists; split; eauto]; frame_done.
    + destruct rof; simpl; eexists; (split; [|eauto]); frame_done.
  - rewrite execution_failed_not_closed.
    destruct rof; simpl; eexists; (split; [|eauto]); frame_done.
Qed.

(** With [raise_on_fail] off, [execute_query] returns whatever happens. *)
Lemma execute_query_lenient (self : SafeQueryExecutor) (q : string)
    (p : option Params) (rr : bool) (w : World) :
  exists v w', execute_query self q p false rr w = (Returned v, w').
Proof.
  destruct rr.
  - destruct (execute_query_read self q p false w _ eq_refl) as (w' & _ & H).
    destruct (accepts _ _ _).
    + destruct H as (r & H & _). eauto.
    + eauto.
  - destruct (execute_query_command self q p false w) as (w' & _ & H).
    destruct (respond _ _ _); eauto.
Qed.

(** [execute_command] sends the command once and returns [True]. *)
Lemma execute_command_sends (self : SafeQueryExecutor) (cmd : string)
    (p : option Params) (w : World) :
  exists w', execute_command self cmd p w = (Returned true, w') /\
             after w [mkStatement cmd p] w'.
Proof.
  destruct (execute_query_command self cmd p false w) as (w' & F & H).
  exists w'. split; [|exact F].
  unfold execute_command, try_except.
  destruct (respond _ _ _);
    erewrite bind_returned by exact H; reflexivity.
Qed.

(* ------------------------------------------------------------------ *)
(** ** The extraction steps of the probes *)

Lemma in_columns_occurrences (label : string) (df : DataFrame) :
  in_columns label df = negb (occurrences label df =? 0)%nat.
Proof.
  unfold in_columns, occurrences.
  induction (columns df) as [|x t IH]; simpl; [reflexivity|].
  destruct (String.eqb label x); simpl; [reflexivity | exact IH].
Qed.

(** [int(x)] leaves the world alone, and returns what [int_value] says
    under the world's interpreter. *)
Lemma py_int_run (x : Cell) (w : World) :
  exists o,
    py_int x w = (o, w) /\
    match o with Returned z => Some z | Raised _ => None end
    = int_value (int_of_text w) x.
Proof.
  destruct x as [z | x | b | t | |]; simpl;
    try (eexists; split; reflexivity).
  destruct (str_to_int (int_of_text w) t); eexists; split; reflexivity.
Qed.

(** The first row's value under the label, as [int(df.iloc[0][label])]
    reads it behind the guard of the counter and memory probes. *)
Lemma guarded_int_iloc0 {A : Type} (label : string) (df : DataFrame)
    (w : World) (k : Z -> A) (default : A) :
  exists o,
    (if in_columns label df && negb (df_empty df)
     then z <- int_iloc0 df label ;; ret (k z)
     else ret default) w = (o, w) /\
    match o with Returned a => a | Raised _ => default end
    = match first_row_value (int_of_text w) label df with
      | Some z => k z
      | None => default
      end.
Proof.
  unfold first_row_value, int_iloc0, df_empty.
  rewrite in_columns_occurrences.
  destruct (rows df) as [|row t].
  - rewrite andb_false_r. eexists. split; reflexivity.
  - destruct (occurrences label df) as [|[|n]] eqn:O; simpl.
    + eexists. split; reflexivity.
    + assert (C : columns df <> []).
      { unfold occurrences in O. destruct (columns df); discriminate. }
      destruct (columns df); [congruence|]. simpl.
      destruct (py_int_run (cell_at label df row) w) as (o & E & V).
      unfold bind. rewrite E, <- V.
      destruct o; eexists; split; reflexivity.
    + destruct (columns df); simpl; eexists; split; reflexivity.
Qed.

Lemma first_int_run (label : string) (df : DataFrame) (w : World) :
  exists o,
    first_int label df w = (o, w) /\
    match o with Returned z => z | Raised _ => 0 end
    = match first_row_value (int_of_text w) label df with
      | Some z => z
      | None => 0
      end.
Proof.
  destruct (guarded_int_iloc0 label df w (fun z => z) 0) as (o & E & V).
  exists o. split; [|exact V].
  rewrite <- E. unfold first_int, bind, ret.
  destruct (in_columns label df && negb (df_empty df)); [|reflexivity].
  destruct (int_iloc0 df label w) as [[z | e] w0]; reflexivity.
Qed.

Lemma memory_step_run (label : string) (df : DataFrame) (w : World) :
  exists o,
    memory_step label df w = (o, w) /\
    match o with Returned a => a | Raised _ => None end
    = first_row_value (int_of_text w) label df.
Proof.
  destruct (guarded_int_iloc0 label df w (@Some Z) None) as (o & E & V).
  exists o. split; [exact E|].
  rewrite V. destruct (first_row_value _ _ _); reflexivity.
Qed.

Lemma index_step_run (label : string) (df : DataFrame) (w : World) :
  exists o,
    index_step label df w = (o, w) /\
    match o with Returned a => a | Raised _ => [] end = column_values label df.
Proof.
  unfold index_step, column_tolist, column_values.
  rewrite in_columns_occurrences.
  destruct (occurrences label df) as [|[|n]]; simpl;
    eexists; (split; reflexivity).
Qed.

(* ------------------------------------------------------------------ *)
(** ** The harvest probes *)

(** A harvest probe always returns; it sends its statement once (twice
    after the "no result set" signal) and does not read the clock; it
    yields what its extraction step makes of the result set the connection
    answered with (the default when that step raises), and its default when
    the connection gave no result set. *)
Lemma lenient_probe_run {A : Type} (ex : SafeQueryExecutor) (sql : string)
    (extract : DataFrame -> Py A) (default : A) (warning : string)
    (value : (string -> option Z) -> DataFrame -> A) :
  (forall df w, exists o,
      extract df w = (o, w) /\
      match o with Returned a => a | Raised _ => default end
      = value (int_of_text w) df) ->
  forall w h, sent w = h ->
  exists w',
    lenient_probe ex sql extract default warning w
    = (Returned match respond (connection ex) h (probe sql) with
                | Rows df => value (int_of_text w) df
                | _ => default
                end, w') /\
    sent w' = h ++ traffic (connection ex) h (probe sql) /\
    clock_reads w' = clock_reads w /\
    wall_clock w' = wall_clock w /\
    int_of_text w' = int_of_text w.
Proof.
  intros Hv w h Hh.
  destruct (execute_query_read ex sql None false w h Hh)
    as (w1 & (F & C & K & I) & H).
  cbv zeta in F, H. change (mkStatement sql None) with (probe sql) in *.
  rewrite Hh in F.
  unfold lenient_probe, try_except. unfold accepts in H.
  destruct (respond (connection ex) h (probe sql)) as [df | | e] eqn:R.
  - destruct H as (r & E & ->).
    rewrite (bind_returned _ _ _ _ _ E).
    destruct (Hv df w1) as (o & Ho & V). rewrite Ho, <- I, <- V.
    destruct o as [a | e]; simpl; eexists; (split; [reflexivity|]); auto.
  - simpl in H.
    destruct (rejected (respond (connection ex) (h ++ [probe sql]) (probe sql))).
    + simpl in H. rewrite (bind_returned _ _ _ _ _ H). simpl.
      eexists; (split; [reflexivity|]); auto.
    + simpl in H. destruct H as (r & E & (a & ->)).
      rewrite (bind_returned _ _ _ _ _ E). simpl.
      eexists; (split; [reflexivity|]); auto.
  - simpl in H. rewrite (bind_returned _ _ _ _ _ H). simpl.
    eexists; (split; [reflexivity|]); auto.
Qed.

(** Either class's [collect_metrics] is the table-driven collector at its
    own variant. *)
Lemma collect_metrics_table (col : TelemetryCollector) (q : string)
    (p : option Params) :
  collect_metrics col q p = collect_with (executor_of col) (variant col) q p.
Proof. destruct col; reflexivity. Qed.

Lemma harvest_statements_nth (b : DatabaseType) :
  map probe (harvest_statements b)
  = [probe (harvest_statement b 0); probe (harvest_statement b 1);
     probe (harvest_statement b 2); probe (harvest_statement b 3)].
Proof. destruct b; reflexivity. Qed.

(** The histories of the harvest probes, one after the other. *)
Lemma harvest_history_steps (c : Connection) (b : DatabaseType)
    (h : list Statement) (q : string) (p : option Params) :
  let hk := harvest_history c b h q p in
  let h1 := h ++ [probe (arm_statement b)] in
  hk 0%nat = h1 ++ traffic c h1 (mkStatement q p) /\
  forall k, (k < 4)%nat ->
    hk (S k) = hk k ++ traffic c (hk k) (probe (harvest_statement b k)).
Proof.
  intros hk h1. subst hk h1. unfold harvest_history.
  rewrite harvest_statements_nth. split; [reflexivity|].
  intros k Hk.
  destruct k as [|[|[|[|k]]]]; [reflexivity .. | lia].
Qed.

(* ------------------------------------------------------------------ *)
(** ** One call of the collector, step by step *)

Section Collect.

Variable ex : SafeQueryExecutor.
Variable b : DatabaseType.
Variable q : string.
Variable p : option Params.
Variable w : World.

(** The whole call: when the connection accepts the read of the primary
    query the call returns, with the traffic, the clock readings and the
    record described; otherwise it raises [QueryExecutionError] right after
    the primary query. *)
Lemma collect_with_run :
  let c := connection ex in
  let arm := probe (arm_statement b) in
  let s := mkStatement q p in
  let h1 := sent w ++ [arm] in
  let hk := harvest_history c b (sent w) q p in
  let n := clock_reads w in
  let answer := fun k => respond c (hk k) (probe (harvest_statement b k)) in
  if accepts c h1 s then
    exists r m w',
      collect_with ex b q p w = (Returned (Some r, m), w') /\
      sent w' = hk 4%nat /\
      clock_reads w' = S (S (S n)) /\
      match respond c h1 s with
      | Rows df => r = Frame df
      | _ => exists a, r = Ack a
      end /\
      query m = q /\ params m = p /\
      execution_time m = (wall_clock w (S n) - wall_clock w n)%Q /\
      timestamp m = wall_clock w (S (S n)) /\
      row_count m = match r with Frame df => df_len df | Ack _ => O end /\
      indexes_used m = indexes_read (index_label b) (answer 0%nat) /\
      table_scans m
      = counter_read (int_of_text w) (scans_label b) (answer 1%nat) /\
      temp_tables m
      = counter_read (int_of_text w) (temp_label b) (answer 2%nat) /\
      memory_used m
      = memory_read (int_of_text w) (memory_label b) (answer 3%nat)
  else
    exists msg e w',
      collect_with ex b q p w = (Raised (QueryExecutionError msg e), w') /\
      sent w' = h1 ++ traffic c h1 s /\
      clock_reads w' = S n.
Proof.
  intros c arm s h1 hk n answer.
  destruct (harvest_history_steps c b (sent w) q p) as (H0 & Hstep).
  cbv zeta in H0, Hstep. fold hk arm h1 s in H0, Hstep.
  pose proof (Hstep 0%nat ltac:(lia)) as H1.
  pose proof (Hstep 1%nat ltac:(lia)) as H2.
  pose proof (Hstep 2%nat ltac:(lia)) as H3.
  pose proof (Hstep 3%nat ltac:(lia)) as H4.
  clear Hstep.
  unfold collect_with.
  destruct (execute_command_sends ex (arm_statement b) None w)
    as (w1 & E1 & S1 & C1 & K1 & I1).
  change (sent w1 = h1) in S1.
  rewrite (bind_returned _ _ _ _ _ E1).
  rewrite (bind_returned time_time _ w1 _ _ eq_refl).
  match goal with |- context [bind (execute_query ex q p true true) _ ?wx] =>
    destruct (execute_query_read ex q p true wx h1 S1)
      as (w2 & (S2 & C2 & K2 & I2) & H)
  end.
  simpl in S2, C2, K2, I2. rewrite S1 in S2.
  cbv zeta in H. fold c s in H, S2.
  destruct (accepts c h1 s).
  - destruct H as (r & E2 & Hr).
    rewrite <- H0 in S2.
    rewrite (bind_returned _ _ _ _ _ E2).
    rewrite (bind_returned time_time _ w2 _ _ eq_refl).
    rewrite (bind_returned datetime_now _ _ _ _ eq_refl).
    match goal with |- context [bind (lenient_probe ex ?sql ?st ?d ?m) _ ?wx] =>
      destruct (lenient_probe_run ex sql st d m
                  (fun _ => column_values (index_label b))
                  (index_step_run _) wx (hk 0%nat) S2)
        as (w3 & E3 & S3 & C3 & K3 & I3)
    end.
    simpl in C3, K3, I3. fold c in S3. rewrite <- H1 in S3.
    rewrite (bind_returned _ _ _ _ _ E3).
    destruct (lenient_probe_run ex (harvest_statement b 1)
                (first_int (scans_label b)) 0
                "Failed to get table scan information: %s"
                (fun tbl df =>
                   match first_row_value tbl (scans_label b) df with
                   | Some z => z
                   | None => 0
                   end)
                (first_int_run _) w3 (hk 1%nat) S3)
      as (w4 & E4 & S4 & C4 & K4 & I4).
    fold c in S4. rewrite <- H2 in S4.
    rewrite (bind_returned _ _ _ _ _ E4).
    destruct (lenient_probe_run ex (harvest_statement b 2)
                (first_int (temp_label b)) 0
                "Failed to get temp table information: %s"
                (fun tbl df =>
                   match first_row_value tbl (temp_label b) df with
                   | Some z => z
                   | None => 0
                   end)
                (first_int_run _) w4 (hk 2%nat) S4)
      as (w5 & E5 & S5 & C5 & K5 & I5).
    fold c in S5. rewrite <- H3 in S5.
    rewrite (bind_returned _ _ _ _ _ E5).
    destruct (lenient_probe_run ex (harvest_statement b 3)
                (memory_step (memory_label b)) None
                "Failed to get memory usage information: %s"
                (fun tbl df => first_row_value tbl (memory_label b) df)
                (memory_step_run _) w5 (hk 3%nat) S5)
      as (w6 & E6 & S6 & C6 & K6 & I6).
    fold c in S6. rewrite <- H4 in S6.
    rewrite (bind_returned _ _ _ _ _ E6).
    assert (T3 : int_of_text w3 = int_of_text w) by congruence.
    assert (T4 : int_of_text w4 = int_of_text w) by congruence.
    assert (T5 : int_of_text w5 = int_of_text w) by congruence.
    eexists r, _, w6. split; [reflexivity|]. simpl.
    split; [exact S6|].
    split; [unfold n; congruence|].
    split; [exact Hr|].
    split; [reflexivity|]. split; [reflexivity|].
    split; [rewrite C2, K2, C1, K1; reflexivity|].
    split; [rewrite C2, K2, C1, K1; reflexivity|].
    split; [destruct r; reflexivity|].
    split; [reflexivity|].
    split; [rewrite T3; reflexivity|].
    split; [rewrite T4; reflexivity|].
    rewrite T5; reflexivity.
  - destruct H as (msg & e & E2).
    rewrite (bind_raised _ _ _ _ _ E2).
    exists msg, e, w2. split; [reflexivity|]. split; [exact S2|].
    unfold n. congruence.
Qed.

End Collect.

(* ------------------------------------------------------------------ *)
(** ** Properties of the telemetry subsystem *)

Example int_of_str_examples :
  int_of_str " 42 " = Some 42 /\ int_of_str "-5" = Some (-5) /\
  int_of_str "+1_000" = Some 1000 /\ int_of_str "007" = Some 7 /\
  int_of_str "1__0" = None /\ int_of_str "_1" = None /\
  int_of_str "" = None /\ int_of_str "- 1" = None /\
  int_of_str "3.5" = None /\
  int_of_str (String (ascii_of_nat 28) "7") = None /\
  int_of_str (String (ascii_of_nat 11) "7") = Some 7.
Proof. repeat split; reflexivity. Qed.

(** [int()] of a number truncates towards zero. *)
Example py_int_examples :
  fst (py_int (CReal (127 # 10)) world0) = Returned 12 /\
  fst (py_int (CReal (- 127 # 10)) world0) = Returned (-12) /\
  fst (py_int (CBool true) world0) = Returned 1 /\
  fst (py_int (CStr " 12 ") world0) = Returned 12 /\
  fst (py_int CNull world0)
  = Raised (TypeError "int() argument must be a string, a bytes-like object or a real number, not 'NoneType'").
Proof. repeat split; reflexivity. Qed.

(** Text that is not plain goes to the interpreter. *)
Example str_to_int_examples :
  forall interpreter,
    str_to_int interpreter "12" = Some 12 /\
    str_to_int interpreter (String (ascii_of_nat 194) (String (ascii_of_nat 160) "7"))
    = interpreter (String (ascii_of_nat 194) (String (ascii_of_nat 160) "7")).
Proof. intros interpreter. split; reflexivity. Qed.

(** C10: [execute_command] returns [True] for every connection behaviour,
    also when the statement fails: [execute_query] with [raise_on_fail] off
    never raises, so the branch returning [False] is never taken. *)
Theorem execute_command_always_true (self : SafeQueryExecutor)
    (command : string) (params : option Params) (w : World) :
  (forall return_results,
     exists v w',
       execute_query self command params false return_results w
       = (Returned v, w')) /\
  exists w', execute_command self command params w = (Returned true, w').
Proof.
  split.
  - intros rr. apply execute_query_lenient.
  - destruct (execute_command_sends self command params w) as (w' & E & _).
    exists w'. exact E.
Qed.

Example execute_command_true_on_failure :
  fst (execute_command (mkSafeQueryExecutor stub_down) "SET profiling = 1"
         None world0) = Returned true.
Proof. reflexivity. Qed.

(** C1, at an input where the code departs from it: an [INSERT] into a
    table with a unique key as the primary query.  The connection executes
    the arm statement, and it executes the [INSERT], which has no result
    set: the primary query has succeeded.  [collect_metrics] nevertheless
    raises [QueryExecutionError]: [execute_query] sends the [INSERT] a
    second time (the defect of C7), and the connection refuses the
    duplicate. *)
Theorem executed_insert_makes_collect_metrics_raise :
  respond (stub_unique_key true three_rows) [probe "SET profiling = 1"]
    (probe "INSERT INTO t VALUES (1)") = NoRows /\
  fst (collect_metrics (mysql_on (stub_unique_key true three_rows))
         "INSERT INTO t VALUES (1)" None world0)
  = Raised (QueryExecutionError
              "Query execution failed: INSERT INTO t VALUES (1). Error: Duplicate entry '1' for key 'PRIMARY'"
              (DriverError "Duplicate entry '1' for key 'PRIMARY'")) /\
  sent (snd (collect_metrics (mysql_on (stub_unique_key true three_rows))
               "INSERT INTO t VALUES (1)" None world0))
  = [ probe "SET profiling = 1";
      probe "INSERT INTO t VALUES (1)";
      probe "INSERT INTO t VALUES (1)" ].
Proof. repeat split; reflexivity. Qed.

(** As a read with a result set the same connection lets the collector
    through. *)
Example select_on_unique_key_table_returns :
  match fst (collect_metrics (mysql_on (stub_unique_key true three_rows))
               "SELECT * FROM t" None world0) with
  | Returned (r, m) => r = Some (Frame three_rows) /\ row_count m = 3%nat
  | Raised _ => False
  end.
Proof. vm_compute. split; reflexivity. Qed.

Lemma traffic_once_or_twice (c : Connection) (h : list Statement)
    (s : Statement) :
  once_or_twice s (traffic c h s).
Proof.
  unfold once_or_twice, traffic. destruct (retried (respond c h s)); auto.
Qed.

(** C2: when the connection does not accept the primary query,
    [collect_metrics] raises [QueryExecutionError], and all it has sent is
    the arm statement followed by the primary query (once, or twice when
    the first answer was the "no result set" signal): no harvest probe. *)
Theorem primary_failure_skips_harvest (col : TelemetryCollector)
    (q : string) (p : option Params) (w : World) :
  accepts (wire col) (sent w ++ [probe (arm_statement (variant col))])
    (mkStatement q p) = false ->
  exists msg e w' l,
    collect_metrics col q p w = (Raised (QueryExecutionError msg e), w') /\
    sent w' = sent w ++ probe (arm_statement (variant col)) :: l /\
    once_or_twice (mkStatement q p) l.
Proof.
  intros Hacc. rewrite collect_metrics_table.
  pose proof (collect_with_run (executor_of col) (variant col) q p w) as H.
  cbv zeta in H. unfold wire in Hacc. rewrite Hacc in H.
  destruct H as (msg & e & w' & E & S & _).
  exists msg, e, w'. eexists. split; [exact E|]. split.
  - rewrite S, <- app_assoc. reflexivity.
  - apply traffic_once_or_twice.
Qed.

Lemma primary_failure_skips_harvest_witness :
  exists msg e w' l,
    collect_metrics (mysql_on (stub_rejecting_after 1 three_rows))
      "SELECT * FROM t" None world0
    = (Raised (QueryExecutionError msg e), w') /\
    sent w' = sent world0 ++ probe (arm_statement MYSQL) :: l /\
    once_or_twice (mkStatement "SELECT * FROM t" None) l.
Proof.
  apply (primary_failure_skips_harvest
           (mysql_on (stub_rejecting_after 1 three_rows))
           "SELECT * FROM t" None world0).
  reflexivity.
Defined.

Example primary_failure_traffic :
  sent (snd (collect_metrics (mysql_on (stub_rejecting_after 1 three_rows))
               "SELECT * FROM t" None world0))
  = [probe "SET profiling = 1"; probe "SELECT * FROM t"].
Proof. reflexivity. Qed.

(** C3, at an input where the code departs from it: an [UPDATE] as the
    primary query, on a connection that is lost right after executing it.
    The connection executes the arm statement and the [UPDATE] (no result
    set), and rejects every statement after these two, so every harvest
    probe would fail.  [collect_metrics] does not return a record of
    defaults: it raises [QueryExecutionError], because [execute_query]
    sends the [UPDATE] a second time (the defect of C7) and that execution
    is rejected. *)
Theorem executed_update_then_lost_connection_raises :
  respond (stub_lost_after 2) [probe "SET log_statement_stats = on"]
    (probe "UPDATE t SET x = 1") = NoRows /\
  (forall h s, (2 <= length h)%nat ->
     rejected (respond (stub_lost_after 2) h s) = true) /\
  fst (collect_metrics (postgresql_on (stub_lost_after 2))
         "UPDATE t SET x = 1" None world0)
  = Raised (QueryExecutionError
              "Query execution failed: UPDATE t SET x = 1. Error: server has gone away"
              (DriverError "server has gone away")) /\
  sent (snd (collect_metrics (postgresql_on (stub_lost_after 2))
               "UPDATE t SET x = 1" None world0))
  = [ probe "SET log_statement_stats = on";
      probe "UPDATE t SET x = 1";
      probe "UPDATE t SET x = 1" ].
Proof.
  split; [reflexivity|]. split; [|split; reflexivity].
  intros h s Hh. simpl.
  destruct (length h <? 2)%nat eqn:L; [|reflexivity].
  apply Nat.ltb_lt in L. lia.
Qed.

(** With a result set for the primary query and every later statement
    rejected, the record holds the defaults. *)
Example rejected_probes_give_defaults :
  match fst (collect_metrics (postgresql_on (stub_rejecting_after 2 three_rows))
               "SELECT * FROM t" None world0) with
  | Returned (r, m) =>
      r = Some (Frame three_rows) /\ indexes_used m = [] /\
      table_scans m = 0 /\ temp_tables m = 0 /\ memory_used m = None
  | Raised _ => False
  end.
Proof. vm_compute. repeat split; reflexivity. Qed.

Lemma traffic_single (c : Connection) (h : list Statement) (s : Statement) :
  retried (respond c h s) = false -> traffic c h s = [s].
Proof. unfold traffic. intros ->. reflexivity. Qed.

Lemma retried_false (r : Response) : r <> NoRows -> retried r = false.
Proof. destruct r; simpl; congruence. Qed.

(** C4, as the code has it: when the connection answers the primary query
    with a result set and answers none of the four harvest probes with the
    "no result set" signal, [collect_metrics] returns and has sent exactly
    the arm statement of its backend, the caller's query with its
    parameters, and the four harvest statements of its backend in the order
    indexes_used, table_scans, temp_tables, memory_used. *)
Theorem harvest_follows_measure (col : TelemetryCollector)
    (q : string) (p : option Params) (w : World) (df : DataFrame) :
  let arm := probe (arm_statement (variant col)) in
  let s := mkStatement q p in
  let probes := map probe (harvest_statements (variant col)) in
  respond (wire col) (sent w ++ [arm]) s = Rows df ->
  (forall k, (k < 4)%nat ->
     respond (wire col) (sent w ++ arm :: s :: firstn k probes)
       (nth k probes s) <> NoRows) ->
  exists m w',
    collect_metrics col q p w = (Returned (Some (Frame df), m), w') /\
    sent w' = sent w ++ arm :: s :: probes.
Proof.
  intros arm s probes Hrows Hprobes. rewrite collect_metrics_table.
  pose proof (collect_with_run (executor_of col) (variant col) q p w) as H.
  cbv zeta in H. unfold wire in Hrows, Hprobes. fold arm s in H.
  unfold accepts in H. rewrite Hrows in H.
  destruct H as (r & m & w' & E & S & _ & -> & _).
  exists m, w'. split; [exact E|]. rewrite S. clear E S.
  destruct (harvest_history_steps (connection (executor_of col)) (variant col)
              (sent w) q p) as (H0 & Hstep).
  cbv zeta in H0, Hstep. fold arm s in H0.
  subst probes. rewrite harvest_statements_nth in *.
  set (c := connection (executor_of col)) in *.
  set (hk := harvest_history c (variant col) (sent w) q p) in *.
  assert (A0 : hk 0%nat = sent w ++ [arm; s]).
  { rewrite H0, traffic_single by (rewrite Hrows; reflexivity).
    rewrite <- app_assoc. reflexivity. }
  assert (A1 : hk 1%nat = sent w ++ [arm; s; probe (harvest_statement (variant col) 0)]).
  { rewrite (Hstep 0%nat) by lia. rewrite A0.
    rewrite traffic_single
      by (apply retried_false; exact (Hprobes 0%nat ltac:(lia))).
    rewrite <- app_assoc. reflexivity. }
  assert (A2 : hk 2%nat
               = sent w ++ [arm; s; probe (harvest_statement (variant col) 0);
                            probe (harvest_statement (variant col) 1)]).
  { rewrite (Hstep 1%nat) by lia. rewrite A1.
    rewrite traffic_single
      by (apply retried_false; exact (Hprobes 1%nat ltac:(lia))).
    rewrite <- app_assoc. reflexivity. }
  assert (A3 : hk 3%nat
               = sent w ++ [arm; s; probe (harvest_statement (variant col) 0);
                            probe (harvest_statement (variant col) 1);
                            probe (harvest_statement (variant col) 2)]).
  { rewrite (Hstep 2%nat) by lia. rewrite A2.
    rewrite traffic_single
      by (apply retried_false; exact (Hprobes 2%nat ltac:(lia))).
    rewrite <- app_assoc. reflexivity. }
  rewrite (Hstep 3%nat) by lia. rewrite A3.
  rewrite traffic_single
    by (apply retried_false; exact (Hprobes 3%nat ltac:(lia))).
  rewrite <- app_assoc. reflexivity.
Qed.

Lemma harvest_follows_measure_witness :
  exists m w',
    collect_metrics (postgresql_on (stub_unique_key true three_rows))
      "SELECT * FROM t" None world0
    = (Returned (Some (Frame three_rows), m), w') /\
    sent w'
    = [ probe "SET log_statement_stats = on";
        probe "SELECT * FROM t";
        probe "SELECT indexname FROM pg_indexes WHERE schemaname = current_schema()";
        probe "SELECT COALESCE(sum(seq_scan), 0) as scans FROM pg_stat_all_tables";
        probe "SELECT COALESCE(sum(temp_files), 0) as temp_tables FROM pg_stat_database";
        probe "SELECT setting::bigint * pg_size_bytes(unit) as bytes FROM pg_settings WHERE name = 'work_mem'" ].
Proof.
  apply (harvest_follows_measure
           (postgresql_on (stub_unique_key true three_rows))
           "SELECT * FROM t" None world0 three_rows).
  - reflexivity.
  - intros k Hk.
    destruct k as [|[|[|[|k]]]]; [discriminate .. | lia].
Defined.

Example mysql_statement_sequence :
  sent (snd (collect_metrics (mysql_on (stub_rows three_rows))
               "SELECT * FROM t" None world0))
  = [ probe "SET profiling = 1";
      probe "SELECT * FROM t";
      probe "SELECT index_name FROM information_schema.statistics WHERE table_schema = DATABASE()";
      probe "SHOW STATUS LIKE 'Handler_read%'";
      probe "SHOW STATUS LIKE 'Created_tmp%'";
      probe "SHOW STATUS LIKE 'Memory_used'" ].
Proof. reflexivity. Qed.

(** C4 as stated does not hold of every call: on a connection that
    rejects the primary query the collector stops after it, and the four
    harvest statements are never sent. *)
Lemma statement_sequence_counterexample :
  sent (snd (collect_metrics (mysql_on stub_down) "SELECT * FROM t" None
               world0))
  = [probe "SET profiling = 1"; probe "SELECT * FROM t"] /\
  sent (snd (collect_metrics (mysql_on stub_down) "SELECT * FROM t" None
               world0))
  <> sent world0
     ++ probe (arm_statement MYSQL) :: probe "SELECT * FROM t"
        :: map probe (harvest_statements MYSQL).
Proof. split; [reflexivity | discriminate]. Qed.

(** C5, as the code has it: in the record of a call that returns,
    [execution_time] is the clock reading taken right after the primary
    query minus the one taken right before it, so it is non-negative
    exactly when the clock was not set back between the two; [row_count] is
    the number of rows of the primary result when that result is a
    DataFrame, which it is exactly when the connection answered the primary
    query with a result set, and 0 when the result is a Result object. *)
Theorem execution_time_is_clock_difference (col : TelemetryCollector)
    (q : string) (p : option Params) (w w' : World)
    (r : option QueryResult) (m : QueryMetrics) :
  collect_metrics col q p w = (Returned (r, m), w') ->
  let n := clock_reads w in
  execution_time m = (wall_clock w (S n) - wall_clock w n)%Q /\
  ((0 <= execution_time m)%Q <-> (wall_clock w n <= wall_clock w (S n))%Q) /\
  match respond (wire col) (sent w ++ [probe (arm_statement (variant col))])
          (mkStatement q p) with
  | Rows df => r = Some (Frame df) /\ row_count m = length (rows df)
  | _ => (exists a, r = Some (Ack a)) /\ row_count m = O
  end.
Proof.
  intros E n. subst n. rewrite collect_metrics_table in E.
  pose proof (collect_with_run (executor_of col) (variant col) q p w) as H.
  cbv zeta in H. unfold wire.
  destruct (accepts _ _ _).
  - destruct H as (r0 & m0 & w0 & E0 & _ & _ & Hr & _ & _ & Ht & _ & Hc & _).
    rewrite E in E0. inversion E0. subst r m0 w0. clear E0.
    split; [exact Ht|]. split.
    + rewrite Ht. unfold Qminus. symmetry. apply Qle_minus_iff.
    + destruct (respond _ _ _) as [df | | e].
      * subst r0. auto.
      * destruct Hr as (a & ->). eauto.
      * destruct Hr as (a & ->). eauto.
  - destruct H as (msg & e & w0 & E0 & _). rewrite E in E0. discriminate.
Qed.

Lemma execution_time_is_clock_difference_witness :
  exists r m w',
    collect_metrics (mysql_on (stub_rows three_rows)) "SELECT * FROM t" None
      world0 = (Returned (r, m), w') /\
    execution_time m = (wall_clock world0 1 - wall_clock world0 0)%Q /\
    ((0 <= execution_time m)%Q
     <-> (wall_clock world0 0 <= wall_clock world0 1)%Q) /\
    r = Some (Frame three_rows) /\ row_count m = 3%nat.
Proof.
  eexists _, _, _. split; [lazy; reflexivity|].
  eapply (execution_time_is_clock_difference
            (mysql_on (stub_rows three_rows)) "SELECT * FROM t" None world0).
  lazy; reflexivity.
Defined.

(** C5 as stated does not hold of every successful primary query: when the
    host clock is set back between the two readings, the record of a call
    whose primary query returned three rows has a negative
    [execution_time]. *)
Lemma negative_execution_time_counterexample :
  exists m w',
    collect_metrics (mysql_on (stub_rows three_rows)) "SELECT * FROM t" None
      world_clock_set_back = (Returned (Some (Frame three_rows), m), w') /\
    (execution_time m == -1)%Q /\
    ~ (0 <= execution_time m)%Q.
Proof.
  eexists _, _. split; [lazy; reflexivity|].
  split; [reflexivity|]. intros H. vm_compute in H. apply H. reflexivity.
Qed.

(** A command as primary query comes back as a Result object, and counts
    no rows, also when the repeated execution does deliver rows. *)
Example command_as_primary_counts_no_rows :
  option_map row_count
    (match fst (collect_metrics (mysql_on stub_no_rows)
                  "UPDATE t SET x = 1" None world0) with
     | Returned (_, m) => Some m
     | Raised _ => None
     end) = Some O /\
  match fst (collect_metrics (mysql_on (stub_rows_on_repetition three_rows))
               "CALL refresh()" None world0) with
  | Returned (r, m) =>
      r = Some (Ack (mkResult (Some three_rows))) /\ row_count m = O
  | Raised _ => False
  end.
Proof. split; [reflexivity|]. vm_compute. split; reflexivity. Qed.

(** C6, at an input where the code departs from it: the arm statement is
    rejected, and the primary query is an [INSERT] into a table with a
    unique key, which the connection executes (no result set): the arm
    statement has failed and the primary query has succeeded.
    [collect_metrics] does not return and no harvest probe is sent: it
    raises [QueryExecutionError], because [execute_query] sends the
    [INSERT] a second time (the defect of C7) and the connection refuses
    the duplicate. *)
Theorem rejected_arm_and_executed_insert_raise :
  rejected (respond (stub_unique_key false three_rows) []
              (probe "SET profiling = 1")) = true /\
  respond (stub_unique_key false three_rows) [probe "SET profiling = 1"]
    (probe "INSERT INTO t VALUES (1)") = NoRows /\
  fst (collect_metrics (mysql_on (stub_unique_key false three_rows))
         "INSERT INTO t VALUES (1)" None world0)
  = Raised (QueryExecutionError
              "Query execution failed: INSERT INTO t VALUES (1). Error: Duplicate entry '1' for key 'PRIMARY'"
              (DriverError "Duplicate entry '1' for key 'PRIMARY'")) /\
  sent (snd (collect_metrics (mysql_on (stub_unique_key false three_rows))
               "INSERT INTO t VALUES (1)" None world0))
  = [ probe "SET profiling = 1";
      probe "INSERT INTO t VALUES (1)";
      probe "INSERT INTO t VALUES (1)" ].
Proof. repeat split; reflexivity. Qed.

(** With a result set for the primary query a rejected arm statement is
    absorbed: measurement and all four harvest probes follow. *)
Example rejected_arm_is_absorbed_before_a_select :
  fst (execute_command (mkSafeQueryExecutor (stub_rejecting_first three_rows))
         "SET profiling = 1" None world0) = Returned true /\
  sent (snd (collect_metrics (mysql_on (stub_rejecting_first three_rows))
               "SELECT * FROM t" None world0))
  = probe "SET profiling = 1" :: probe "SELECT * FROM t"
    :: map probe (harvest_statements MYSQL).
Proof. split; reflexivity. Qed.

(** A read answered with the "no result set" signal puts the statement on
    the wire a second time. *)
Lemma execute_query_resends (self : SafeQueryExecutor) (q : string)
    (p : option Params) (rof : bool) (w : World) :
  retried (respond (connection self) (sent w) (mkStatement q p)) = true ->
  sent (snd (execute_query self q p rof true w))
  = sent w ++ [mkStatement q p; mkStatement q p].
Proof.
  intros R.
  destruct (execute_query_read self q p rof w _ eq_refl) as (w' & (S & _) & H).
  cbv zeta in S, H. unfold traffic in S. rewrite R in S.
  destruct (accepts _ _ _).
  - destruct H as (r & -> & _). exact S.
  - destruct rof; [destruct H as (msg & e & ->) | rewrite H]; exact S.
Qed.

(** C7, at the failing input: an [INSERT] run through [execute_query] with
    results wanted, on a connection that has no result set for it, comes
    back as a bare completion signal, and has reached the connection
    twice. *)
Theorem insert_reaches_connection_twice :
  fst (execute_query (mkSafeQueryExecutor stub_no_rows)
         "INSERT INTO t VALUES (1)" None true true world0)
  = Returned (Some (Ack (mkResult None))) /\
  sent (snd (execute_query (mkSafeQueryExecutor stub_no_rows)
               "INSERT INTO t VALUES (1)" None true true world0))
  = [probe "INSERT INTO t VALUES (1)"; probe "INSERT INTO t VALUES (1)"].
Proof. split; reflexivity. Qed.

(** Without results wanted the same statement reaches it once. *)
Example insert_as_command_reaches_connection_once :
  sent (snd (execute_query (mkSafeQueryExecutor stub_no_rows)
               "INSERT INTO t VALUES (1)" None true false world0))
  = [probe "INSERT INTO t VALUES (1)"].
Proof. reflexivity. Qed.

(** C8, as the code has it: [table_scans] and [temp_tables] of the
    returned record are non-negative integers whenever neither counter
    probe is answered with a result set whose first-row value under the
    probe's column [int()] reads as a negative integer. *)
Theorem counters_follow_their_probes (col : TelemetryCollector)
    (q : string) (p : option Params) (w w' : World)
    (r : option QueryResult) (m : QueryMetrics) :
  let c := wire col in
  let b := variant col in
  let hk := harvest_history c b (sent w) q p in
  collect_metrics col q p w = (Returned (r, m), w') ->
  (forall df z,
     respond c (hk 1%nat) (probe (harvest_statement b 1)) = Rows df ->
     first_row_value (int_of_text w) (scans_label b) df = Some z -> 0 <= z) ->
  (forall df z,
     respond c (hk 2%nat) (probe (harvest_statement b 2)) = Rows df ->
     first_row_value (int_of_text w) (temp_label b) df = Some z -> 0 <= z) ->
  0 <= table_scans m /\ 0 <= temp_tables m.
Proof.
  intros c b hk E Hscans Htemp. subst c b hk.
  rewrite collect_metrics_table in E.
  pose proof (collect_with_run (executor_of col) (variant col) q p w) as H.
  cbv zeta in H. unfold wire in Hscans, Htemp.
  destruct (accepts _ _ _).
  - destruct H as (r0 & m0 & w0 & E0 & _ & _ & _ & _ & _ & _ & _ & _ & _
                   & T & U & _).
    rewrite E in E0. inversion E0. subst r m0 w0. clear E0.
    rewrite T, U. unfold counter_read. split.
    + destruct (respond _ _ (probe (harvest_statement (variant col) 1)))
        as [df | | e] eqn:R; try lia.
      destruct (first_row_value _ _ df) as [z|] eqn:V; [|lia].
      exact (Hscans df z eq_refl V).
    + destruct (respond _ _ (probe (harvest_statement (variant col) 2)))
        as [df | | e] eqn:R; try lia.
      destruct (first_row_value _ _ df) as [z|] eqn:V; [|lia].
      exact (Htemp df z eq_refl V).
  - destruct H as (msg & e & w0 & E0 & _). rewrite E in E0. discriminate.
Qed.

Lemma counters_follow_their_probes_witness :
  exists r m w',
    collect_metrics (mysql_on (stub_rows (status_row "12")))
      "SELECT * FROM t" None world0 = (Returned (r, m), w') /\
    0 <= table_scans m /\ 0 <= temp_tables m.
Proof.
  eexists _, _, _. split; [lazy; reflexivity|].
  eapply (counters_follow_their_probes
            (mysql_on (stub_rows (status_row "12"))) "SELECT * FROM t" None
            world0).
  - lazy; reflexivity.
  - intros df z R V. simpl in R. inversion R. subst df.
    vm_compute in V. inversion V. lia.
  - intros df z R V. simpl in R. inversion R. subst df.
    vm_compute in V. inversion V. lia.
Defined.

(** C8 as stated does not hold of arbitrary probe values: a connection
    reporting the status value -5 yields negative counters. *)
Lemma negative_counter_counterexample :
  exists r m w',
    collect_metrics (mysql_on (stub_rows (status_row "-5")))
      "SELECT * FROM t" None world0 = (Returned (r, m), w') /\
    table_scans m = -5 /\ temp_tables m = -5 /\
    ~ (0 <= table_scans m /\ 0 <= temp_tables m).
Proof.
  eexists _, _, _. split; [lazy; reflexivity|]. simpl.
  split; [reflexivity|]. split; [reflexivity|]. lia.
Qed.

Lemma prefix_append (a b : string) : String.prefix a (a ++ b)%string = true.
Proof.
  induction a as [|ch a IH]; simpl.
  - destruct b; reflexivity.
  - destruct (ascii_dec ch ch); [exact IH | congruence].
Qed.

(** C9: the factory returns the collector of the matching variant for
    [MYSQL] and [POSTGRESQL], built on the connection and executor it was
    given; for any other value it raises the unsupported-backend error; and
    in every case the world is left as it was: nothing is sent to the
    connection. *)
Theorem factory_dispatch (db_type : PyValue) (c : Connection)
    (ex : SafeQueryExecutor) (w : World) :
  match db_type with
  | VEnum b =>
      exists col,
        create_telemetry_collector db_type c ex w = (Returned col, w) /\
        variant col = b /\ executor_of col = ex
  | _ =>
      exists e,
        create_telemetry_collector db_type c ex w = (Raised e, w) /\
        is_UnsupportedBackend e = true
  end.
Proof.
  destruct db_type as [[|] | | z | t];
    try (eexists; split; [reflexivity|]; split; reflexivity);
    (eexists; split; [reflexivity|]; apply prefix_append).
Qed.

Example factory_rejects_other_backend :
  create_telemetry_collector (VStr "oracle") stub_down
    (mkSafeQueryExecutor stub_down) world0
  = (Raised (ValueError "Unsupported database type: oracle"), world0).
Proof. reflexivity. Qed.

(** The scenario of the specification: three rows for the primary query,
    empty answers for all probes. *)
Example three_rows_and_empty_probes :
  match fst (collect_metrics (mysql_on (stub_rows_then_empty three_rows))
               "SELECT * FROM t" None world0) with
  | Returned (r, m) =>
      r = Some (Frame three_rows) /\ row_count m = 3%nat /\
      (0 < execution_time m)%Q /\ indexes_used m = [] /\
      table_scans m = 0 /\ temp_tables m = 0 /\ memory_used m = None
  | Raised _ => False
  end.
Proof. vm_compute. repeat split; reflexivity. Qed.

(* ------------------------------------------------------------------ *)
(** ** Further properties of the executor *)

(** X1: with [return_results] off, [execute_query] sends the statement to
    the connection exactly once, whatever the answer and whatever
    [raise_on_fail]. *)
Theorem command_sent_once (self : SafeQueryExecutor) (q : string)
    (p : option Params) (rof : bool) (w : World) :
  sent (snd (execute_query self q p rof false w)) = sent w ++ [mkStatement q p].
Proof.
  destruct (execute_query_command self q p rof w) as (w' & (S & _) & H).
  destruct (respond _ _ _); [rewrite H | rewrite H |]; try exact S.
  destruct rof; [destruct H as (msg & ->) | rewrite H]; exact S.
Qed.

(** X2: [execute_query] raises only with [raise_on_fail] on, and what it
    raises is a [QueryExecutionError] whose message is
    "Query execution failed: <query>. Error: <cause>" and whose
    [original_error] is the exception that ended the [try] block.  When
    the connection raised at the first execution, that is the connection's
    exception itself with [return_results] off, and what [pd.read_sql]
    raises for it with [return_results] on: pandas' [DatabaseError]
    "Execution failed on sql '<query>': <exception>" around an exception of
    SQLAlchemy, any other exception unchanged.  When the first execution
    had no result set, it is the exception the connection raised at the
    repeated execution. *)
Theorem raised_error_wraps_cause (self : SafeQueryExecutor) (q : string)
    (p : option Params) (rof rr : bool) (w w' : World) (e : PyExc) :
  execute_query self q p rof rr w = (Raised e, w') ->
  rof = true /\
  exists cause,
    e = QueryExecutionError
          ("Query execution failed: " ++ q ++ ". Error: " ++ exc_str cause)%string
          cause /\
    match respond (connection self) (sent w) (mkStatement q p) with
    | Fails exc => cause = if rr then execution_failed q exc else exc
    | NoRows =>
        rr = true /\
        respond (connection self) (sent w ++ [mkStatement q p])
          (mkStatement q p) = Fails cause
    | Rows _ => False
    end.
Proof.
  run_py. destruct rr; simpl.
  - destruct (respond (connection self) (sent w) (mkStatement q p))
      as [df | | c1] eqn:R1; simpl; [discriminate | |].
    + destruct (respond (connection self) (sent w ++ [mkStatement q p])
                  (mkStatement q p)) as [df | | c2] eqn:R2; simpl;
        try discriminate.
      destruct rof; simpl; [|discriminate].
      intros [= <- _]. eauto.
    + rewrite execution_failed_not_closed.
      destruct rof; simpl; [|discriminate].
      intros [= <- _]. eauto.
  - destruct (respond (connection self) (sent w) (mkStatement q p))
      as [df | | c1] eqn:R1; simpl; try discriminate.
    destruct rof; simpl; [|discriminate].
    intros [= <- _]. eauto.
Qed.

Lemma raised_error_wraps_cause_witness :
  true = true /\
  exists cause,
    QueryExecutionError
      "Query execution failed: SELECT 1. Error: Execution failed on sql 'SELECT 1': server has gone away"
      (PandasDatabaseError
         "Execution failed on sql 'SELECT 1': server has gone away"
         (DriverError "server has gone away"))
    = QueryExecutionError
        ("Query execution failed: " ++ "SELECT 1" ++ ". Error: "
           ++ exc_str cause)%string cause /\
    cause = PandasDatabaseError
              "Execution failed on sql 'SELECT 1': server has gone away"
              (DriverError "server has gone away").
Proof.
  exact (raised_error_wraps_cause (mkSafeQueryExecutor stub_down)
           "SELECT 1" None true true world0 _ _ eq_refl).
Defined.

(** The same failure on the two paths: as a command the connection's
    exception is the cause, as a read pandas' wrapper is. *)
Example cause_of_a_rejected_statement :
  fst (execute_query (mkSafeQueryExecutor stub_down) "SELECT 1" None true
         false world0)
  = Raised (QueryExecutionError
              "Query execution failed: SELECT 1. Error: server has gone away"
              (DriverError "server has gone away")) /\
  fst (execute_query (mkSafeQueryExecutor stub_down) "SELECT 1" None true
         true world0)
  = Raised (QueryExecutionError
              "Query execution failed: SELECT 1. Error: Execution failed on sql 'SELECT 1': server has gone away"
              (PandasDatabaseError
                 "Execution failed on sql 'SELECT 1': server has gone away"
                 (DriverError "server has gone away"))).
Proof. split; reflexivity. Qed.

(** X3: a result set comes back as it was delivered: when the connection
    answers a read with rows, [execute_query] returns exactly that frame
    and has sent the statement once. *)
Theorem result_set_returned_unchanged (self : SafeQueryExecutor) (q : string)
    (p : option Params) (rof : bool) (w : World) (df : DataFrame) :
  respond (connection self) (sent w) (mkStatement q p) = Rows df ->
  fst (execute_query self q p rof true w) = Returned (Some (Frame df)) /\
  sent (snd (execute_query self q p rof true w)) = sent w ++ [mkStatement q p].
Proof.
  intros R.
  destruct (execute_query_read self q p rof w _ eq_refl) as (w' & (S & _) & H).
  cbv zeta in S, H. unfold traffic, accepts in *. rewrite R in *.
  destruct H as (r & E & ->). rewrite E. split; [reflexivity | exact S].
Qed.

Lemma result_set_returned_unchanged_witness :
  fst (execute_query (mkSafeQueryExecutor (stub_rows three_rows))
         "SELECT * FROM t" None true true world0)
  = Returned (Some (Frame three_rows)) /\
  sent (snd (execute_query (mkSafeQueryExecutor (stub_rows three_rows))
               "SELECT * FROM t" None true true world0))
  = sent world0 ++ [mkStatement "SELECT * FROM t" None].
Proof.
  apply (result_set_returned_unchanged
           (mkSafeQueryExecutor (stub_rows three_rows))
           "SELECT * FROM t" None true world0 three_rows).
  reflexivity.
Defined.

(** X4: with [raise_on_fail] off, a read returns [None] exactly when the
    connection does not accept it; in every other case it returns a frame
    or a completion signal. *)
Theorem lenient_read_none_iff_rejected (self : SafeQueryExecutor)
    (q : string) (p : option Params) (w : World) :
  fst (execute_query self q p false true w) = Returned None <->
  accepts (connection self) (sent w) (mkStatement q p) = false.
Proof.
  destruct (execute_query_read self q p false w _ eq_refl) as (w' & _ & H).
  cbv zeta in H.
  destruct (accepts _ _ _).
  - destruct H as (r & -> & _). simpl. split; discriminate.
  - rewrite H. simpl. split; reflexivity.
Qed.

(** A [ResourceClosedError] raised by the connection itself is a failure
    like any other: the statement is not sent again. *)
Example closed_connection_is_not_retried :
  execute_query
    (mkSafeQueryExecutor
       (mkConnection (fun _ _ =>
          Fails (ResourceClosedError "This Connection is closed"))))
    "SELECT 1" None false true world0
  = (Returned None,
     mkWorld [probe "SELECT 1"] 0 (wall_clock world0) (int_of_text world0)
       [ (DEBUG, "Executing query: %s with params: %s");
         (ERROR, "Query execution failed: SELECT 1. Error: Execution failed on sql 'SELECT 1': This Connection is closed") ]).
Proof. reflexivity. Qed.

(** X5: when the connection executes a read and has no result set for it,
    the statement is sent a second time and the outcome is that of the
    second execution: its result object when it is accepted, and a failure
    (raised or swallowed into [None]) when it is rejected. *)
Theorem second_execution_decides (self : SafeQueryExecutor) (q : string)
    (p : option Params) (rof : bool) (w : World) :
  let s := mkStatement q p in
  respond (connection self) (sent w) s = NoRows ->
  sent (snd (execute_query self q p rof true w)) = sent w ++ [s; s] /\
  match respond (connection self) (sent w ++ [s]) s with
  | Rows df =>
      fst (execute_query self q p rof true w)
      = Returned (Some (Ack (mkResult (Some df))))
  | NoRows =>
      fst (execute_query self q p rof true w)
      = Returned (Some (Ack (mkResult None)))
  | Fails cause =>
      if rof
      then exists msg,
          fst (execute_query self q p rof true w)
          = Raised (QueryExecutionError msg cause)
      else fst (execute_query self q p rof true w) = Returned None
  end.
Proof.
  intros s. subst s. run_py. intros ->. simpl.
  destruct (respond (connection self) (sent w ++ [mkStatement q p])
              (mkStatement q p)) as [df | | c2]; simpl;
    [ | | destruct rof; simpl ];
    (split; [rewrite <- app_assoc; reflexivity | eauto]).
Qed.

Lemma second_execution_decides_witness :
  sent (snd (execute_query (mkSafeQueryExecutor stub_no_rows)
               "UPDATE t SET x = 1" None false true world0))
  = sent world0
    ++ [mkStatement "UPDATE t SET x = 1" None;
        mkStatement "UPDATE t SET x = 1" None] /\
  fst (execute_query (mkSafeQueryExecutor stub_no_rows)
         "UPDATE t SET x = 1" None false true world0)
  = Returned (Some (Ack (mkResult None))).
Proof.
  apply (second_execution_decides (mkSafeQueryExecutor stub_no_rows)
           "UPDATE t SET x = 1" None false world0).
  reflexivity.
Defined.

(** X6: what [execute_query] writes to the log: always the DEBUG line
    first; nothing more when it returns a result; and exactly one ERROR
    line "Query execution failed: <query>. Error: <cause>" when the
    statement failed, whether the failure is then raised or swallowed. *)
Theorem execute_query_log (self : SafeQueryExecutor) (q : string)
    (p : option Params) (rof rr : bool) (w : World) :
  exists tail,
    journal (snd (execute_query self q p rof rr w))
    = journal w ++ (DEBUG, "Executing query: %s with params: %s") :: tail /\
    match fst (execute_query self q p rof rr w) with
    | Returned (Some _) => tail = []
    | _ =>
        exists cause,
          tail = [(ERROR,
                   ("Query execution failed: " ++ q ++ ". Error: "
                      ++ exc_str cause)%string)]
    end.
Proof.
  run_py. destruct rr; simpl.
  - destruct (respond (connection self) (sent w) (mkStatement q p))
      as [df | | c1]; simpl.
    + exists []. auto.
    + destruct (respond (connection self) (sent w ++ [mkStatement q p])
                  (mkStatement q p)) as [df | | c2]; simpl;
        try (exists []; split; reflexivity).
      destruct rof; simpl; eexists; (split; [rewrite <- app_assoc; reflexivity|]);
        eauto.
    + rewrite execution_failed_not_closed.
      destruct rof; simpl; eexists;
        (split; [rewrite <- app_assoc; reflexivity|]); eauto.
  - destruct (respond (connection self) (sent w) (mkStatement q p))
      as [df | | c1]; simpl; try (exists []; split; reflexivity).
    destruct rof; simpl; eexists; (split; [rewrite <- app_assoc; reflexivity|]);
      eauto.
Qed.

(* ------------------------------------------------------------------ *)
(** ** Further properties of the harvest probes and of the measurement *)

Lemma counter_probe_run (ex : SafeQueryExecutor) (sql label warning : string)
    (w : World) :
  fst (lenient_probe ex sql (first_int label) 0 warning w)
  = Returned (counter_read (int_of_text w) label
                (respond (connection ex) (sent w) (probe sql))).
Proof.
  destruct (lenient_probe_run ex sql (first_int label) 0 warning
              (fun tbl df =>
                 match first_row_value tbl label df with
                 | Some z => z
                 | None => 0
                 end)
              (first_int_run label) w _ eq_refl) as (w' & -> & _).
  reflexivity.
Qed.

Lemma memory_probe_run (ex : SafeQueryExecutor) (sql label warning : string)
    (w : World) :
  fst (lenient_probe ex sql (memory_step label) None warning w)
  = Returned (memory_read (int_of_text w) label
                (respond (connection ex) (sent w) (probe sql))).
Proof.
  destruct (lenient_probe_run ex sql (memory_step label) None warning
              (fun tbl df => first_row_value tbl label df)
              (memory_step_run label) w _ eq_refl) as (w' & -> & _).
  reflexivity.
Qed.

Lemma index_probe_run (ex : SafeQueryExecutor) (sql label warning : string)
    (w : World) :
  fst (lenient_probe ex sql (index_step label) [] warning w)
  = Returned (indexes_read label
                (respond (connection ex) (sent w) (probe sql))).
Proof.
  destruct (lenient_probe_run ex sql (index_step label) [] warning
              (fun _ df => column_values label df)
              (index_step_run label) w _ eq_refl) as (w' & -> & _).
  reflexivity.
Qed.

(** X7: what the four counter probes return, for every connection
    behaviour.  When the connection answers with a tidy result set: the
    integer [int()] reads in the first row under the probe's column (MySQL:
    Value; PostgreSQL: scans, temp_tables) when the result set has this
    column once and a first row whose value converts, and 0 when the column
    is missing or repeated, there is no row, or the value does not convert.
    When the connection fails or has no result set: 0.  Rows after the
    first are never read. *)
Theorem counter_probes_read_first_row :
  (forall (c : MySQLTelemetryCollector.t) (w : World),
     match respond (connection (MySQLTelemetryCollector.executor c))
             (sent w) (probe "SHOW STATUS LIKE 'Handler_read%'") with
     | Rows df =>
         tidy df ->
         fst (MySQLTelemetryCollector._get_table_scans c w)
         = Returned
             match first_row_value (int_of_text w) "Value" df with
             | Some z => z
             | None => 0
             end
     | _ => fst (MySQLTelemetryCollector._get_table_scans c w) = Returned 0
     end) /\
  (forall (c : MySQLTelemetryCollector.t) (w : World),
     match respond (connection (MySQLTelemetryCollector.executor c))
             (sent w) (probe "SHOW STATUS LIKE 'Created_tmp%'") with
     | Rows df =>
         tidy df ->
         fst (MySQLTelemetryCollector._get_temp_tables c w)
         = Returned
             match first_row_value (int_of_text w) "Value" df with
             | Some z => z
             | None => 0
             end
     | _ => fst (MySQLTelemetryCollector._get_temp_tables c w) = Returned 0
     end) /\
  (forall (c : PostgreSQLTelemetryCollector.t) (w : World),
     match respond (connection (PostgreSQLTelemetryCollector.executor c))
             (sent w)
             (probe "SELECT COALESCE(sum(seq_scan), 0) as scans FROM pg_stat_all_tables") with
     | Rows df =>
         tidy df ->
         fst (PostgreSQLTelemetryCollector._get_table_scans c w)
         = Returned
             match first_row_value (int_of_text w) "scans" df with
             | Some z => z
             | None => 0
             end
     | _ =>
         fst (PostgreSQLTelemetryCollector._get_table_scans c w) = Returned 0
     end) /\
  (forall (c : PostgreSQLTelemetryCollector.t) (w : World),
     match respond (connection (PostgreSQLTelemetryCollector.executor c))
             (sent w)
             (probe "SELECT COALESCE(sum(temp_files), 0) as temp_tables FROM pg_stat_database") with
     | Rows df =>
         tidy df ->
         fst (PostgreSQLTelemetryCollector._get_temp_tables c w)
         = Returned
             match first_row_value (int_of_text w) "temp_tables" df with
             | Some z => z
             | None => 0
             end
     | _ =>
         fst (PostgreSQLTelemetryCollector._get_temp_tables c w) = Returned 0
     end).
Proof.
  repeat split; intros c w;
    match goal with
    | |- match respond ?cn ?h (probe ?sql) with _ => _ end =>
        pose proof (fun label warning =>
                      counter_probe_run (mkSafeQueryExecutor cn) sql label
                        warning w) as H;
        destruct (respond cn h (probe sql)) as [df | | e] eqn:R;
        [intros _ | |];
        (etransitivity; [apply H|]); simpl; rewrite R; reflexivity
    end.
Qed.

Lemma counter_probes_read_first_row_witness :
  tidy (status_row "12") /\
  fst (MySQLTelemetryCollector._get_table_scans
         (MySQLTelemetryCollector.new (stub_rows (status_row "12"))
            (mkSafeQueryExecutor (stub_rows (status_row "12")))) world0)
  = Returned 12.
Proof.
  assert (T : tidy (status_row "12")) by (repeat constructor).
  split; [exact T|].
  exact (proj1 counter_probes_read_first_row
           (MySQLTelemetryCollector.new (stub_rows (status_row "12"))
              (mkSafeQueryExecutor (stub_rows (status_row "12"))))
           world0 T).
Defined.

(** X8: what the two index probes return, for every connection behaviour:
    the values of their column (MySQL: index_name; PostgreSQL: indexname),
    top to bottom, when the connection answers with a result set that has
    this column once; the empty list in every other case. *)
Theorem index_probes_list_column :
  (forall (c : MySQLTelemetryCollector.t) (w : World),
     fst (MySQLTelemetryCollector._get_used_indexes c w)
     = Returned
         match respond (connection (MySQLTelemetryCollector.executor c))
                 (sent w)
                 (probe "SELECT index_name FROM information_schema.statistics WHERE table_schema = DATABASE()") with
         | Rows df => column_values "index_name" df
         | _ => []
         end) /\
  (forall (c : PostgreSQLTelemetryCollector.t) (w : World),
     fst (PostgreSQLTelemetryCollector._get_used_indexes c w)
     = Returned
         match respond (connection (PostgreSQLTelemetryCollector.executor c))
                 (sent w)
                 (probe "SELECT indexname FROM pg_indexes WHERE schemaname = current_schema()") with
         | Rows df => column_values "indexname" df
         | _ => []
         end).
Proof.
  split; intros c w; apply (index_probe_run _ _ _ _ w).
Qed.

(** X9: what the two memory probes return, for every connection
    behaviour.  When the connection answers with a tidy result set: [Some]
    of the integer [int()] reads in the first row under the probe's column
    (MySQL: Value; PostgreSQL: bytes) when the result set has this column
    once and a first row whose value converts, and [None] when the column
    is missing or repeated, there is no row, or the value does not convert.
    When the connection fails or has no result set: [None]. *)
Theorem memory_probes_read_first_row :
  (forall (c : MySQLTelemetryCollector.t) (w : World),
     match respond (connection (MySQLTelemetryCollector.executor c))
             (sent w) (probe "SHOW STATUS LIKE 'Memory_used'") with
     | Rows df =>
         tidy df ->
         fst (MySQLTelemetryCollector._get_memory_usage c w)
         = Returned (first_row_value (int_of_text w) "Value" df)
     | _ =>
         fst (MySQLTelemetryCollector._get_memory_usage c w) = Returned None
     end) /\
  (forall (c : PostgreSQLTelemetryCollector.t) (w : World),
     match respond (connection (PostgreSQLTelemetryCollector.executor c))
             (sent w)
             (probe "SELECT setting::bigint * pg_size_bytes(unit) as bytes FROM pg_settings WHERE name = 'work_mem'") with
     | Rows df =>
         tidy df ->
         fst (PostgreSQLTelemetryCollector._get_memory_usage c w)
         = Returned (first_row_value (int_of_text w) "bytes" df)
     | _ =>
         fst (PostgreSQLTelemetryCollector._get_memory_usage c w)
         = Returned None
     end).
Proof.
  split; intros c w;
    match goal with
    | |- match respond ?cn ?h (probe ?sql) with _ => _ end =>
        pose proof (fun label warning =>
                      memory_probe_run (mkSafeQueryExecutor cn) sql label
                        warning w) as H;
        destruct (respond cn h (probe sql)) as [df | | e] eqn:R;
        [intros _ | |];
        (etransitivity; [apply H|]); simpl; rewrite R; reflexivity
    end.
Qed.

Lemma memory_probes_read_first_row_witness :
  tidy (status_row "1048576") /\
  fst (MySQLTelemetryCollector._get_memory_usage
         (MySQLTelemetryCollector.new (stub_rows (status_row "1048576"))
            (mkSafeQueryExecutor (stub_rows (status_row "1048576")))) world0)
  = Returned (Some 1048576).
Proof.
  assert (T : tidy (status_row "1048576")) by (repeat constructor).
  split; [exact T|].
  exact (proj1 memory_probes_read_first_row
           (MySQLTelemetryCollector.new (stub_rows (status_row "1048576"))
              (mkSafeQueryExecutor (stub_rows (status_row "1048576"))))
           world0 T).
Defined.

Example mysql_probes_on_status_rows :
  fst (MySQLTelemetryCollector._get_table_scans
         (MySQLTelemetryCollector.new (stub_rows (status_row "12"))
            (mkSafeQueryExecutor (stub_rows (status_row "12")))) world0)
  = Returned 12 /\
  fst (MySQLTelemetryCollector._get_memory_usage
         (MySQLTelemetryCollector.new (stub_rows (status_row "n/a"))
            (mkSafeQueryExecutor (stub_rows (status_row "n/a")))) world0)
  = Returned None /\
  fst (MySQLTelemetryCollector._get_used_indexes
         (MySQLTelemetryCollector.new (stub_rows (status_row "12"))
            (mkSafeQueryExecutor (stub_rows (status_row "12")))) world0)
  = Returned [].
Proof. repeat split; reflexivity. Qed.


(* ------------------------------------------------------------------ *)
(** ** Properties of the configuration validation *)

Lemma nonempty_str_test (x : Config.Obj) :
  negb (Config.truthy x) || negb (Config.is_str x) = false <-> nonempty_str x.
Proof.
  unfold nonempty_str. split.
  - destruct x as [| b | z | s]; simpl; rewrite ?orb_true_r; try discriminate.
    rewrite orb_false_r, negb_involutive. intros E. exists s. split; auto.
    intros ->. discriminate.
  - intros (s & -> & N). simpl. rewrite orb_false_r, negb_involutive.
    apply String.eqb_neq, N.
Qed.

Lemma lt_passes (x : Config.Obj) (lo : Z) :
  Config.lt x lo = Config.Ok false <-> number_from lo x.
Proof.
  unfold Config.lt, number_from. destruct (Config.number x) as [z|]; split.
  - intros [= E]. exists z. split; auto. apply Z.ltb_ge, E.
  - intros (z' & [= <-] & L). f_equal. apply Z.ltb_ge, L.
  - discriminate.
  - intros (z' & E & _). discriminate.
Qed.

Lemma port_test (x : Config.Obj) :
  (if negb (Config.is_int x) then Config.Ok true
   else Config.and_then (Config.lt x 1) (fun low =>
        if low then Config.Ok true else Config.gt x 65535))
  = Config.Ok false <-> port_number x.
Proof.
  unfold port_number, Config.lt, Config.gt.
  destruct x as [| b | z | s]; simpl; split;
    try discriminate; try (intros (z' & E & _); discriminate).
  - destruct b; simpl; [|discriminate]. intros _. exists 1. split; [auto|lia].
  - intros (z' & [= <-] & L). destruct b; [reflexivity | lia].
  - destruct (z <? 1)%Z eqn:L1; simpl; [discriminate|].
    intros [= G]. exists z. split; auto.
    apply Z.ltb_ge in L1. rewrite Z.gtb_ltb in G. apply Z.ltb_ge in G. lia.
  - intros (z' & [= <-] & L).
    destruct (z <? 1)%Z eqn:L1; simpl; [apply Z.ltb_lt in L1; lia|].
    f_equal. rewrite Z.gtb_ltb. apply Z.ltb_ge. lia.
Qed.

Lemma database_test (x : Config.Obj) :
  negb (Config.is_none x) && negb (Config.is_str x) = false <-> none_or_str x.
Proof.
  unfold none_or_str. destruct x as [| b | z | s]; simpl; split;
    try discriminate; eauto; intros [E | (s' & E)]; discriminate.
Qed.

Lemma base_config_valid (cfg : Config.DatabaseConfig.t) :
  Config.DatabaseConfig._validate_base_config cfg = Config.Ok tt
  <-> base_fields_ok cfg.
Proof.
  unfold Config.DatabaseConfig._validate_base_config, base_fields_ok.
  rewrite <- !nonempty_str_test, <- port_test, <- database_test, <- !lt_passes.
  destruct (negb (Config.truthy (Config.DatabaseConfig.user cfg))
            || negb (Config.is_str (Config.DatabaseConfig.user cfg)));
    [split; [discriminate | intros (? & _); discriminate]|].
  destruct (negb (Config.truthy (Config.DatabaseConfig.password cfg))
            || negb (Config.is_str (Config.DatabaseConfig.password cfg)));
    [split; [discriminate | intros (_ & ? & _); discriminate]|].
  destruct (negb (Config.truthy (Config.DatabaseConfig.host cfg))
            || negb (Config.is_str (Config.DatabaseConfig.host cfg)));
    [split; [discriminate | intros (_ & _ & ? & _); discriminate]|].
  match goal with |- Config.and_then ?t _ = _ <-> _ =>
    destruct t as [[|]|e] end; simpl;
    try (split; [discriminate | intros (_ & _ & _ & ? & _); discriminate]).
  destruct (negb (Config.is_none (Config.DatabaseConfig.database cfg))
            && negb (Config.is_str (Config.DatabaseConfig.database cfg)));
    [split; [discriminate | intros (_ & _ & _ & _ & ? & _); discriminate]|].
  destruct (Config.lt (Config.DatabaseConfig.pool_size cfg) 1) as [[|]|e];
    simpl;
    try (split; [discriminate | intros (_ & _ & _ & _ & _ & ? & _); discriminate]).
  destruct (Config.lt (Config.DatabaseConfig.max_overflow cfg) 0) as [[|]|e];
    simpl;
    try (split; [discriminate
                | intros (_ & _ & _ & _ & _ & _ & ? & _); discriminate]).
  destruct (Config.lt (Config.DatabaseConfig.pool_timeout cfg) 1) as [[|]|e];
    simpl;
    try (split; [discriminate
                | intros (_ & _ & _ & _ & _ & _ & _ & ?); discriminate]).
  split; auto 10.
Qed.

Lemma in_valid_sslmodes (m : string) :
  existsb (String.eqb m) Config.valid_sslmodes = true
  <-> In m Config.valid_sslmodes.
Proof.
  rewrite existsb_exists. split.
  - intros (x & I & E). apply String.eqb_eq in E. subst. exact I.
  - intros I. exists m. split; [exact I | apply String.eqb_refl].
Qed.

Lemma backend_config_valid (repr : string) (cfg : Config.DatabaseConfig.t) :
  Config.DatabaseConfig._validate_db_specific_config repr cfg = Config.Ok tt
  <-> backend_fields_ok cfg.
Proof.
  unfold Config.DatabaseConfig._validate_db_specific_config, backend_fields_ok.
  destruct (Config.DatabaseConfig.db_type cfg) as [[|] | | z | s]; simpl;
    try (split; auto; fail).
  - unfold Config.DatabaseConfig._validate_mysql_config.
    destruct (Config.DatabaseConfig.mysql_config cfg) as [mc|].
    2:{ split; [intros _ mc ssl E; discriminate | reflexivity]. }
    destruct (Config.MySQLSpecificConfig.ssl mc) as [ssl|] eqn:S.
    2:{ split; [intros _ mc' ssl [= <-] E; congruence | reflexivity]. }
    split.
    + intros H mc' ssl' [= <-] E En V. rewrite S in E. injection E as <-.
      rewrite En, V in H. simpl in H.
      destruct (Config.SSLConfig.ca_cert ssl) as [path|]; [|discriminate].
      exists path. split; [reflexivity|].
      destruct (String.eqb_spec path ""); [discriminate | assumption].
    + intros H.
      destruct (Config.SSLConfig.enabled ssl) eqn:En; [|reflexivity].
      destruct (Config.SSLConfig.verify_cert ssl) eqn:V; [|reflexivity].
      destruct (H mc ssl eq_refl S En V) as (path & -> & N). simpl.
      apply String.eqb_neq in N. rewrite N. reflexivity.
  - unfold Config.DatabaseConfig._validate_postgresql_config.
    destruct (Config.DatabaseConfig.postgresql_config cfg) as [pc|].
    2:{ split; [intros _ pc E; discriminate | reflexivity]. }
    destruct (existsb (String.eqb (Config.PostgreSQLSpecificConfig.sslmode pc))
                Config.valid_sslmodes) eqn:E; simpl; split.
    + intros _ pc' [= <-]. apply in_valid_sslmodes, E.
    + reflexivity.
    + discriminate.
    + intros H. specialize (H pc eq_refl).
      apply in_valid_sslmodes in H. congruence.
Qed.


Example minimal_mysql_config_valid :
  Config.DatabaseConfig.init "" minimal_mysql_config
  = Config.Ok minimal_mysql_config.
Proof. reflexivity. Qed.

Lemma nonempty_str_fails (x : Config.Obj) :
  ~ nonempty_str x ->
  negb (Config.truthy x) || negb (Config.is_str x) = true.
Proof.
  intros N.
  destruct (negb (Config.truthy x) || negb (Config.is_str x)) eqn:E;
    [reflexivity|].
  exfalso. apply N, nonempty_str_test, E.
Qed.

Lemma nonempty_str_passes (x : Config.Obj) :
  nonempty_str x ->
  negb (Config.truthy x) || negb (Config.is_str x) = false.
Proof. apply nonempty_str_test. Qed.

(** X12: [_validate_base_config] reports the first rule that is broken,
    in the order user name, password, host, port, database: each of these
    gets its own [DatabaseConfigError] message, whatever is wrong with the
    fields that come later. *)
Theorem first_violation_reported (cfg : Config.DatabaseConfig.t) :
  let v := Config.DatabaseConfig._validate_base_config cfg in
  let user := Config.DatabaseConfig.user cfg in
  let password := Config.DatabaseConfig.password cfg in
  let host := Config.DatabaseConfig.host cfg in
  let port := Config.DatabaseConfig.port cfg in
  let database := Config.DatabaseConfig.database cfg in
  (~ nonempty_str user ->
   v = Config.Fail (Config.DatabaseConfigError "Invalid username")) /\
  (nonempty_str user -> ~ nonempty_str password ->
   v = Config.Fail (Config.DatabaseConfigError "Invalid password")) /\
  (nonempty_str user -> nonempty_str password -> ~ nonempty_str host ->
   v = Config.Fail (Config.DatabaseConfigError "Invalid host")) /\
  (nonempty_str user -> nonempty_str password -> nonempty_str host ->
   ~ port_number port ->
   v = Config.Fail (Config.DatabaseConfigError "Invalid port number")) /\
  (nonempty_str user -> nonempty_str password -> nonempty_str host ->
   port_number port -> ~ none_or_str database ->
   v = Config.Fail (Config.DatabaseConfigError "Invalid database name")).
Proof.
  intros v user password host port database. subst v.
  unfold Config.DatabaseConfig._validate_base_config.
  fold user password host port database.
  repeat split.
  - intros N. rewrite (nonempty_str_fails _ N). reflexivity.
  - intros U N.
    rewrite (nonempty_str_passes _ U), (nonempty_str_fails _ N). reflexivity.
  - intros U P N.
    rewrite (nonempty_str_passes _ U), (nonempty_str_passes _ P),
      (nonempty_str_fails _ N). reflexivity.
  - intros U P H N.
    rewrite (nonempty_str_passes _ U), (nonempty_str_passes _ P),
      (nonempty_str_passes _ H).
    pose proof (port_test port) as T.
    destruct (if negb (Config.is_int port) then Config.Ok true
              else Config.and_then (Config.lt port 1) (fun low =>
                   if low then Config.Ok true else Config.gt port 65535))
      as [[|]|e] eqn:E.
    + reflexivity.
    + exfalso. apply N, T. reflexivity.
    + exfalso. clear - E. unfold Config.lt, Config.gt in E.
      destruct port as [| b | z | s]; simpl in E; try discriminate.
      * destruct b; discriminate.
      * destruct (z <? 1)%Z; discriminate.
  - intros U P H Po N.
    rewrite (nonempty_str_passes _ U), (nonempty_str_passes _ P),
      (nonempty_str_passes _ H).
    rewrite (proj2 (port_test port) Po). simpl.
    destruct (negb (Config.is_none database) && negb (Config.is_str database))
      eqn:E; [reflexivity|].
    exfalso. apply N, database_test, E.
Qed.

Lemma first_violation_reported_witness :
  Config.DatabaseConfig._validate_base_config
    (Config.DatabaseConfig.new (VEnum MYSQL)
       (Config.OStr "user") (Config.OStr "pass") (Config.OStr "localhost")
       (Config.OInt 70000) (Config.OInt 5) Config.ONone Config.ONone
       Config.ONone Config.ONone None None)
  = Config.Fail (Config.DatabaseConfigError "Invalid port number").
Proof.
  apply (proj1 (proj2 (proj2 (proj2
           (first_violation_reported
              (Config.DatabaseConfig.new (VEnum MYSQL)
                 (Config.OStr "user") (Config.OStr "pass")
                 (Config.OStr "localhost") (Config.OInt 70000)
                 (Config.OInt 5) Config.ONone Config.ONone Config.ONone
                 Config.ONone None None)))))).
  - exists "user". split; [reflexivity | discriminate].
  - exists "pass". split; [reflexivity | discriminate].
  - exists "localhost". split; [reflexivity | discriminate].
  - intros (z & [= <-] & L). lia.
Defined.

(** X13: what [_validate_base_config] can raise: a [DatabaseConfigError]
    with one of its eight messages, or, when the first five fields are
    valid and a pool setting is not a number, the [TypeError] of comparing
    that setting with an integer.  The port is tested with [isinstance]
    first and never raises a [TypeError]. *)
Theorem base_validation_failures (cfg : Config.DatabaseConfig.t)
    (e : Config.Exc) :
  Config.DatabaseConfig._validate_base_config cfg = Config.Fail e ->
  (exists msg, e = Config.DatabaseConfigError msg /\ In msg base_messages) \/
  (exists msg,
     e = Config.TypeError msg /\
     nonempty_str (Config.DatabaseConfig.user cfg) /\
     nonempty_str (Config.DatabaseConfig.password cfg) /\
     nonempty_str (Config.DatabaseConfig.host cfg) /\
     port_number (Config.DatabaseConfig.port cfg) /\
     none_or_str (Config.DatabaseConfig.database cfg) /\
     (Config.number (Config.DatabaseConfig.pool_size cfg) = None \/
      Config.number (Config.DatabaseConfig.max_overflow cfg) = None \/
      Config.number (Config.DatabaseConfig.pool_timeout cfg) = None)).
Proof.
  unfold Config.DatabaseConfig._validate_base_config, base_messages.
  destruct (negb (Config.truthy (Config.DatabaseConfig.user cfg))
            || negb (Config.is_str (Config.DatabaseConfig.user cfg))) eqn:U;
    [intros [= <-]; left; eexists; split; [reflexivity | simpl; auto]|].
  destruct (negb (Config.truthy (Config.DatabaseConfig.password cfg))
            || negb (Config.is_str (Config.DatabaseConfig.password cfg))) eqn:P;
    [intros [= <-]; left; eexists; split; [reflexivity | simpl; auto]|].
  destruct (negb (Config.truthy (Config.DatabaseConfig.host cfg))
            || negb (Config.is_str (Config.DatabaseConfig.host cfg))) eqn:H;
    [intros [= <-]; left; eexists; split; [reflexivity | simpl; auto]|].
  apply nonempty_str_test in U, P, H.
  pose proof (port_test (Config.DatabaseConfig.port cfg)) as T.
  destruct (if negb (Config.is_int (Config.DatabaseConfig.port cfg))
            then Config.Ok true
            else Config.and_then (Config.lt (Config.DatabaseConfig.port cfg) 1)
                   (fun low => if low then Config.Ok true
                               else Config.gt (Config.DatabaseConfig.port cfg)
                                      65535))
    as [[|]|e0] eqn:E; simpl.
  - intros [= <-]; left; eexists; split; [reflexivity | simpl; auto].
  - assert (Po : port_number (Config.DatabaseConfig.port cfg))
      by (apply T; reflexivity).
    destruct (negb (Config.is_none (Config.DatabaseConfig.database cfg))
              && negb (Config.is_str (Config.DatabaseConfig.database cfg)))
      eqn:D;
      [intros [= <-]; left; eexists; split; [reflexivity | simpl; auto 10]|].
    apply database_test in D.
    unfold Config.lt.
    destruct (Config.number (Config.DatabaseConfig.pool_size cfg)) as [a|];
      simpl; [|intros [= <-]; right; eexists; split; [reflexivity|]; auto 10].
    destruct (a <? 1)%Z;
      [intros [= <-]; left; eexists; split; [reflexivity | simpl; auto 10]|].
    destruct (Config.number (Config.DatabaseConfig.max_overflow cfg)) as [b|];
      simpl; [|intros [= <-]; right; eexists; split; [reflexivity|]; auto 10].
    destruct (b <? 0)%Z;
      [intros [= <-]; left; eexists; split; [reflexivity | simpl; auto 10]|].
    destruct (Config.number (Config.DatabaseConfig.pool_timeout cfg)) as [c|];
      simpl; [|intros [= <-]; right; eexists; split; [reflexivity|]; auto 10].
    destruct (c <? 1)%Z;
      [intros [= <-]; left; eexists; split; [reflexivity | simpl; auto 10]|].
    discriminate.
  - exfalso. clear - E. unfold Config.lt, Config.gt in E.
    destruct (Config.DatabaseConfig.port cfg) as [| b | z | s]; simpl in E;
      try discriminate.
    + destruct b; discriminate.
    + destruct (z <? 1)%Z; discriminate.
Qed.

Lemma base_validation_failures_witness :
  exists msg,
    Config.TypeError "'<' not supported between instances of 'str' and 'int'"
    = Config.TypeError msg /\
    Config.number (Config.OStr "5") = None.
Proof.
  destruct (base_validation_failures
              (Config.DatabaseConfig.new (VEnum MYSQL)
                 (Config.OStr "user") (Config.OStr "pass")
                 (Config.OStr "localhost") (Config.OInt 3306) Config.ONone
                 (Config.OStr "utf8") (Config.OStr "5") (Config.OInt 10)
                 (Config.OInt 30) None None)
              (Config.TypeError
                 "'<' not supported between instances of 'str' and 'int'")
              eq_refl)
    as [(msg & E & _) | (msg & E & _)].
  - discriminate.
  - exists msg. split; [exact E | reflexivity].
Defined.

(** X14: only the rule of the selected backend is applied.  A MySQL
    configuration is judged without looking at its PostgreSQL settings, a
    PostgreSQL configuration without looking at its MySQL settings (so no
    CA certificate is required of it), and for any other [db_type] the
    result is that of the base validation alone. *)
Theorem backend_rule_follows_db_type (repr : string)
    (u pw h po db ch ps mo pt : Config.Obj)
    (mc mc' : option Config.MySQLSpecificConfig.t)
    (pc pc' : option Config.PostgreSQLSpecificConfig.t) :
  Config.DatabaseConfig.__post_init__ repr
    (Config.DatabaseConfig.new (VEnum MYSQL) u pw h po db ch ps mo pt mc pc)
  = Config.DatabaseConfig.__post_init__ repr
      (Config.DatabaseConfig.new (VEnum MYSQL) u pw h po db ch ps mo pt mc pc')
  /\
  Config.DatabaseConfig.__post_init__ repr
    (Config.DatabaseConfig.new (VEnum POSTGRESQL) u pw h po db ch ps mo pt
       mc pc)
  = Config.DatabaseConfig.__post_init__ repr
      (Config.DatabaseConfig.new (VEnum POSTGRESQL) u pw h po db ch ps mo pt
         mc' pc)
  /\
  forall d,
    match d with VEnum _ => False | _ => True end ->
    Config.DatabaseConfig.__post_init__ repr
      (Config.DatabaseConfig.new d u pw h po db ch ps mo pt mc pc)
    = Config.DatabaseConfig._validate_base_config
        (Config.DatabaseConfig.new d u pw h po db ch ps mo pt mc' pc').
Proof.
  split; [reflexivity|]. split; [reflexivity|].
  intros d Hd. unfold Config.DatabaseConfig.__post_init__.
  change (Config.DatabaseConfig._validate_base_config
            (Config.DatabaseConfig.new d u pw h po db ch ps mo pt mc pc))
    with (Config.DatabaseConfig._validate_base_config
            (Config.DatabaseConfig.new d u pw h po db ch ps mo pt mc' pc')).
  destruct (Config.DatabaseConfig._validate_base_config _) as [[]|e];
    [|reflexivity].
  destruct d as [m | | z | s]; [contradiction | reflexivity..].
Qed.

Lemma backend_rule_follows_db_type_witness :
  Config.DatabaseConfig.__post_init__ ""
    (Config.DatabaseConfig.new (VStr "oracle")
       (Config.OStr "user") (Config.OStr "pass") (Config.OStr "localhost")
       (Config.OInt 1521) Config.ONone (Config.OStr "utf8") (Config.OInt 5)
       (Config.OInt 10) (Config.OInt 30) None None)
  = Config.Ok tt.
Proof.
  rewrite (proj2 (proj2 (backend_rule_follows_db_type ""
             (Config.OStr "user") (Config.OStr "pass")
             (Config.OStr "localhost") (Config.OInt 1521) Config.ONone
             (Config.OStr "utf8") (Config.OInt 5) (Config.OInt 10)
             (Config.OInt 30) None None None None)) (VStr "oracle") I).
  reflexivity.
Defined.

(* ------------------------------------------------------------------ *)
(** ** Properties of the connectors and of their factory *)

Lemma string_append_assoc (a b c : string) :
  ((a ++ b) ++ c = a ++ (b ++ c))%string.
Proof. induction a as [|ch a IH]; simpl; [reflexivity | rewrite IH; reflexivity]. Qed.

(** X15: the MySQL connection URL takes user name and password as they
    are, with no escaping: a colon inside the user name is read as the
    separator, so a user name "a:b" with password p gives the same URL as
    user name "a" with password "b:p". *)
Theorem mysql_url_takes_credentials_verbatim (d : PyValue)
    (a b pw : string) (h po db ch ps mo pt : Config.Obj)
    (mc : option Config.MySQLSpecificConfig.t)
    (pc : option Config.PostgreSQLSpecificConfig.t) :
  MySQLConnector._build_connection_string
    (MySQLConnector.__init__
       (Config.DatabaseConfig.new d (Config.OStr (a ++ ":" ++ b))
          (Config.OStr pw) h po db ch ps mo pt mc pc))
  = MySQLConnector._build_connection_string
      (MySQLConnector.__init__
         (Config.DatabaseConfig.new d (Config.OStr a)
            (Config.OStr (b ++ ":" ++ pw)) h po db ch ps mo pt mc pc)).
Proof.
  unfold MySQLConnector._build_connection_string, MySQLConnector.__init__.
  cbn [MySQLConnector.config Config.DatabaseConfig.user
       Config.DatabaseConfig.password Config.DatabaseConfig.host
       Config.DatabaseConfig.port Config.DatabaseConfig.database
       Config.DatabaseConfig.charset Config.obj_str].
  assert (E : forall rest : string,
             ((a ++ ":" ++ b) ++ ":" ++ pw ++ rest
              = a ++ ":" ++ (b ++ ":" ++ pw) ++ rest)%string).
  { intros rest. rewrite !string_append_assoc. reflexivity. }
  rewrite !E. reflexivity.
Qed.

(** X16: the connect arguments of a PostgreSQL connector that the factory
    built do not depend on the SSL mode of the configuration: [sslmode] is
    always "prefer", the connect timeout 10, and only the client encoding
    is taken from the configuration (its charset). *)
Theorem postgresql_connect_args_fixed (cfg : Config.DatabaseConfig.t)
    (c : PostgreSQLConnector.t) :
  DatabaseFactory.create_connector cfg = Returned (PostgreSQLC c) ->
  lookup (PostgreSQLConnector._get_connect_args c) "sslmode"
  = Some (Config.OStr "prefer") /\
  lookup (PostgreSQLConnector._get_connect_args c) "connect_timeout"
  = Some (Config.OInt 10) /\
  lookup (PostgreSQLConnector._get_connect_args c) "client_encoding"
  = Some (Config.DatabaseConfig.charset cfg).
Proof.
  unfold DatabaseFactory.create_connector.
  destruct (Config.DatabaseConfig.db_type cfg) as [[|] | | z | s]; simpl;
    try discriminate.
  intros [= <-]. repeat split.
Qed.

Lemma postgresql_connect_args_fixed_witness :
  lookup (PostgreSQLConnector._get_connect_args
            (PostgreSQLConnector.__init__ verified_postgresql_config))
    "sslmode" = Some (Config.OStr "prefer") /\
  lookup (PostgreSQLConnector._get_connect_args
            (PostgreSQLConnector.__init__ verified_postgresql_config))
    "connect_timeout" = Some (Config.OInt 10) /\
  lookup (PostgreSQLConnector._get_connect_args
            (PostgreSQLConnector.__init__ verified_postgresql_config))
    "client_encoding" = Some (Config.OStr "utf8").
Proof.
  apply (postgresql_connect_args_fixed verified_postgresql_config).
  reflexivity.
Defined.

(** X17: [create_connector] returns, for a configuration whose [db_type]
    is [MYSQL] or [POSTGRESQL], the connector of that class, holding the
    configuration it was given and neither an engine nor a connection; for
    any other [db_type] it raises the [ValueError]
    "Unsupported database type: ...". *)
Theorem connector_factory_dispatch (cfg : Config.DatabaseConfig.t) :
  match Config.DatabaseConfig.db_type cfg with
  | VEnum b =>
      exists c,
        DatabaseFactory.create_connector cfg = Returned c /\
        connector_variant c = b /\ connector_config c = cfg /\ unconnected c
  | other =>
      DatabaseFactory.create_connector cfg
      = Raised (ValueError
                  ("Unsupported database type: " ++ value_str other)%string)
  end.
Proof.
  unfold DatabaseFactory.create_connector.
  destruct (Config.DatabaseConfig.db_type cfg) as [[|] | | z | s]; simpl;
    try reflexivity;
    eexists; (split; [reflexivity|]); repeat split.
Qed.

(** Settings sent one by one, each failure swallowed. *)
Lemma for_each_sends (conn : Connection) (warning : string)
    (l : list string) (w : World) :
  exists w',
    for_each l (fun setting =>
      try_except is_Exception
        (connection_execute conn setting None ;; ret tt)
        (fun e => log_emit WARNING warning)) w
    = (Returned tt, w') /\
    sent w' = sent w ++ map probe l.
Proof.
  revert w. induction l as [|x l IH]; intros w; simpl.
  - exists w. rewrite app_nil_r. auto.
  - unfold bind at 1, try_except, connection_execute, bind, ret, log_emit.
    destruct (respond conn (sent w) (mkStatement x None)) as [df | | e];
      simpl;
      match goal with |- context [for_each l _ ?wx] =>
        destruct (IH wx) as (w' & E & S)
      end;
      exists w'; (split; [exact E|]);
      rewrite S; simpl; rewrite <- app_assoc; reflexivity.
Qed.

(** X18: [_configure_session] never raises: on a connector that holds a
    connection it sends the four session settings, in their order, each
    exactly once, going on after a setting the connection rejects; on a
    connector without a connection it sends nothing. *)
Theorem session_configuration_is_best_effort (self : PostgreSQLConnector.t)
    (w : World) :
  exists w',
    PostgreSQLConnector._configure_session self w = (Returned tt, w') /\
    sent w'
    = sent w ++ match PostgreSQLConnector._connection self with
                | Some _ =>
                    [ probe "SET statement_timeout = '300000'";
                      probe "SET row_security = on";
                      probe "SET search_path = public";
                      probe "SET TRANSACTION ISOLATION LEVEL READ COMMITTED" ]
                | None => []
                end.
Proof.
  unfold PostgreSQLConnector._configure_session.
  destruct (PostgreSQLConnector._connection self) as [conn|].
  - apply (for_each_sends conn _ PostgreSQLConnector.session_settings w).
  - exists w. rewrite app_nil_r. auto.
Qed.

(** X19: [listen_notify] on a connector that holds a connection sends the
    single statement "LISTEN <channel>", the channel name as given; when
    the connection rejects it, the connection's own exception is raised
    again, unwrapped; on a connector without a connection nothing is sent
    and nothing is raised. *)
Theorem listen_sends_one_statement (self : PostgreSQLConnector.t)
    (channel : string) (w : World) :
  match PostgreSQLConnector._connection self with
  | Some conn =>
      sent (snd (PostgreSQLConnector.listen_notify self channel w))
      = sent w ++ [probe ("LISTEN " ++ channel)] /\
      fst (PostgreSQLConnector.listen_notify self channel w)
      = match respond conn (sent w) (probe ("LISTEN " ++ channel)) with
        | Fails e => Raised e
        | _ => Returned tt
        end
  | None =>
      PostgreSQLConnector.listen_notify self channel w = (Returned tt, w)
  end.
Proof.
  unfold PostgreSQLConnector.listen_notify.
  destruct (PostgreSQLConnector._connection self) as [conn|];
    [|reflexivity].
  unfold try_except, bind, connection_execute, ret, raise, log_emit, probe.
  destruct (respond conn (sent w) _) as [df | | e]; simpl; auto.
Qed.

(* ------------------------------------------------------------------ *)
(** ** Properties of the facade *)

Section Facade.

Variable get_connection : DatabaseConnector -> Py Connection.
Variable close_connection : DatabaseConnector -> Py unit.

Lemma managed_raising_body {A : Type} (self : Database.t)
    (body : Connection -> Py A) (w : World) :
  (forall c w1, exists e w2, body c w1 = (Raised e, w2)) ->
  exists e,
    fst (Database._managed_connection get_connection close_connection self
           body w) = Raised e.
Proof.
  intros Hbody. unfold Database._managed_connection, bind.
  destruct (get_connection (Database.connector self) w) as [[c | e] w1].
  - destruct (Hbody c w1) as (e & w2 & ->).
    destruct (close_connection (Database.connector self) w2) as [[[] | e'] w3];
      simpl; eauto.
  - destruct (close_connection (Database.connector self) w1) as [[[] | e'] w3];
      simpl; eauto.
Qed.

Lemma undefined_method_raises {A : Type} (v : PyValue) (name : string)
    (c : Connection) (w1 : World) :
  exists e w2,
    (collector <- create_telemetry_collector v c (mkSafeQueryExecutor c) ;;
     @call_undefined A collector name) w1 = (Raised e, w2).
Proof.
  unfold bind, create_telemetry_collector, call_undefined, raise, ret.
  destruct v as [[|] | | z | s]; simpl; eauto.
Qed.

(** X20: [get_performance_metrics] and [analyze_query] never return a
    result, for any connector, any configuration and any connection
    behaviour: they call [get_resource_usage] and [get_execution_plan],
    which neither collector class defines.  With a [db_type] of the
    enumeration, a connection obtained and closed without error, what they
    raise is the [AttributeError] of the missing method, and nothing has
    happened between opening and closing. *)
Theorem analysis_methods_never_return (self : Database.t) (q : string)
    (p : option Params) (w : World) :
  (exists e,
     fst (Database.get_performance_metrics get_connection close_connection
            self w) = Raised e) /\
  (exists e,
     fst (Database.analyze_query get_connection close_connection self q p w)
     = Raised e) /\
  (forall b conn w1 w2,
     Config.DatabaseConfig.db_type (Database.config self) = VEnum b ->
     get_connection (Database.connector self) w = (Returned conn, w1) ->
     close_connection (Database.connector self) w1 = (Returned tt, w2) ->
     exists cls,
       Database.get_performance_metrics get_connection close_connection self w
       = (Raised (AttributeError
                    ("'" ++ cls
                       ++ "' object has no attribute 'get_resource_usage'")%string),
          w2) /\
       Database.analyze_query get_connection close_connection self q p w
       = (Raised (AttributeError
                    ("'" ++ cls
                       ++ "' object has no attribute 'get_execution_plan'")%string),
          w2)).
Proof.
  split; [|split].
  - apply managed_raising_body. intros c w1. apply undefined_method_raises.
  - apply managed_raising_body. intros c w1. apply undefined_method_raises.
  - intros b conn w1 w2 Hb Hg Hc.
    unfold Database.get_performance_metrics, Database.analyze_query,
      Database._managed_connection, bind.
    rewrite Hg, Hb.
    destruct b; simpl; rewrite Hc;
      [exists "MySQLTelemetryCollector" | exists "PostgreSQLTelemetryCollector"];
      split; reflexivity.
Qed.

(** X21: what [select] runs.  On a facade built by [__init__], with the
    connection obtained and closing without error, [select] without
    telemetry returns what the strict [execute_query] returns on that
    connection, and [select] with telemetry returns what [collect_metrics]
    of the collector of the configured backend returns on it; an exception
    of either is passed on unchanged. *)
Theorem select_runs_on_the_configured_backend (cfg : Config.DatabaseConfig.t)
    (self : Database.t) (q : string) (p : option Params) (w w1 : World)
    (conn : Connection) :
  Database.__init__ cfg = Returned self ->
  get_connection (Database.connector self) w = (Returned conn, w1) ->
  (forall w', exists w'',
      close_connection (Database.connector self) w' = (Returned tt, w'')) ->
  fst (Database.select get_connection close_connection self q p false w)
  = match fst (execute_query (mkSafeQueryExecutor conn) q p true true w1) with
    | Returned result => Returned (Plain result)
    | Raised e => Raised e
    end /\
  exists col,
    Config.DatabaseConfig.db_type cfg = VEnum (variant col) /\
    wire col = conn /\
    fst (Database.select get_connection close_connection self q p true w)
    = match fst (collect_metrics col q p w1) with
      | Returned measured => Returned (WithMetrics measured)
      | Raised e => Raised e
      end.
Proof.
  intros Hinit Hg Hc.
  unfold Database.__init__, DatabaseFactory.create_connector in Hinit.
  unfold Database.select, Database._managed_connection.
  split.
  - unfold bind at 1. rewrite Hg. unfold bind.
    destruct (execute_query (mkSafeQueryExecutor conn) q p true true w1)
      as [[r | e] w2]; simpl;
      destruct (Hc w2) as (w3 & ->); reflexivity.
  - destruct (Config.DatabaseConfig.db_type cfg) as [[|] | | z | s] eqn:D;
      simpl in Hinit; try discriminate; injection Hinit as <-;
      cbn [Database.config Database.connector] in *; rewrite D.
    + exists (mysql_on conn). split; [reflexivity|]. split; [reflexivity|].
      unfold collect_metrics, mysql_on, bind, create_telemetry_collector, ret.
      rewrite Hg. simpl.
      match goal with
      | |- context [MySQLTelemetryCollector.collect_metrics ?c q p w1] =>
          destruct (MySQLTelemetryCollector.collect_metrics c q p w1)
            as [[r | e] w2]
      end; simpl; destruct (Hc w2) as (w3 & ->); reflexivity.
    + exists (postgresql_on conn). split; [reflexivity|]. split; [reflexivity|].
      unfold collect_metrics, postgresql_on, bind, create_telemetry_collector,
        ret.
      rewrite Hg. simpl.
      match goal with
      | |- context [PostgreSQLTelemetryCollector.collect_metrics ?c q p w1] =>
          destruct (PostgreSQLTelemetryCollector.collect_metrics c q p w1)
            as [[r | e] w2]
      end; simpl; destruct (Hc w2) as (w3 & ->); reflexivity.
Qed.

End Facade.

Lemma analysis_methods_never_return_witness :
  exists cls,
    Database.get_performance_metrics
      (always_connected (stub_rows three_rows)) closes_quietly
      (Database.new minimal_mysql_config
         (MySQLC (MySQLConnector.__init__ minimal_mysql_config))) world0
    = (Raised (AttributeError
                 ("'" ++ cls
                    ++ "' object has no attribute 'get_resource_usage'")%string),
       world0) /\
    Database.analyze_query
      (always_connected (stub_rows three_rows)) closes_quietly
      (Database.new minimal_mysql_config
         (MySQLC (MySQLConnector.__init__ minimal_mysql_config)))
      "SELECT * FROM t" None world0
    = (Raised (AttributeError
                 ("'" ++ cls
                    ++ "' object has no attribute 'get_execution_plan'")%string),
       world0).
Proof.
  apply (proj2 (proj2 (analysis_methods_never_return
           (always_connected (stub_rows three_rows)) closes_quietly
           (Database.new minimal_mysql_config
              (MySQLC (MySQLConnector.__init__ minimal_mysql_config)))
           "SELECT * FROM t" None world0)) MYSQL (stub_rows three_rows)
           world0 world0);
    reflexivity.
Defined.

Lemma select_runs_on_the_configured_backend_witness :
  fst (Database.select (always_connected (stub_rows three_rows))
         closes_quietly
         (Database.new minimal_mysql_config
            (MySQLC (MySQLConnector.__init__ minimal_mysql_config)))
         "SELECT * FROM t" None false world0)
  = match fst (execute_query (mkSafeQueryExecutor (stub_rows three_rows))
                 "SELECT * FROM t" None true true world0) with
    | Returned result => Returned (Plain result)
    | Raised e => Raised e
    end /\
  exists col,
    Config.DatabaseConfig.db_type minimal_mysql_config = VEnum (variant col) /\
    wire col = stub_rows three_rows /\
    fst (Database.select (always_connected (stub_rows three_rows))
           closes_quietly
           (Database.new minimal_mysql_config
              (MySQLC (MySQLConnector.__init__ minimal_mysql_config)))
           "SELECT * FROM t" None true world0)
    = match fst (collect_metrics col "SELECT * FROM t" None world0) with
      | Returned measured => Returned (WithMetrics measured)
      | Raised e => Raised e
      end.
Proof.
  apply (select_runs_on_the_configured_backend
           (always_connected (stub_rows three_rows)) closes_quietly
           minimal_mysql_config).
  - reflexivity.
  - reflexivity.
  - intros w'. exists w'. reflexivity.
Defined.

Example select_returns_three_rows :
  fst (Database.select (always_connected (stub_rows three_rows))
         closes_quietly
         (Database.new minimal_mysql_config
            (MySQLC (MySQLConnector.__init__ minimal_mysql_config)))
         "SELECT * FROM t" None false world0)
  = Returned (Plain (Some (Frame three_rows))).
Proof. reflexivity. Qed.

(** X22: validation does not look at [db_type] itself: a configuration
    whose base fields are valid and whose [db_type] is no member of the
    enumeration is constructed without error, and it is the facade that
    refuses it, with the [ValueError] of the connector factory. *)
Theorem unknown_backend_passes_validation (repr : string)
    (cfg : Config.DatabaseConfig.t) :
  match Config.DatabaseConfig.db_type cfg with
  | VEnum _ => False
  | _ => True
  end ->
  base_fields_ok cfg ->
  Config.DatabaseConfig.init repr cfg = Config.Ok cfg /\
  exists e, Database.__init__ cfg = Raised e /\ is_UnsupportedBackend e = true.
Proof.
  intros Hd Hbase. split.
  - unfold Config.DatabaseConfig.init, Config.DatabaseConfig.__post_init__.
    rewrite (proj2 (base_config_valid cfg) Hbase). simpl.
    rewrite (proj2 (backend_config_valid repr cfg)); [reflexivity|].
    unfold backend_fields_ok.
    destruct (Config.DatabaseConfig.db_type cfg); [contradiction | exact I..].
  - unfold Database.__init__, DatabaseFactory.create_connector.
    destruct (Config.DatabaseConfig.db_type cfg) as [b | | z | s];
      [contradiction | | |];
      (eexists; split; [reflexivity | apply prefix_append]).
Qed.

Lemma unknown_backend_passes_validation_witness :
  Config.DatabaseConfig.init ""
    (Config.DatabaseConfig.new (VStr "oracle")
       (Config.OStr "user") (Config.OStr "pass") (Config.OStr "localhost")
       (Config.OInt 1521) Config.ONone (Config.OStr "utf8") (Config.OInt 5)
       (Config.OInt 10) (Config.OInt 30) None None)
  = Config.Ok
      (Config.DatabaseConfig.new (VStr "oracle")
         (Config.OStr "user") (Config.OStr "pass") (Config.OStr "localhost")
         (Config.OInt 1521) Config.ONone (Config.OStr "utf8") (Config.OInt 5)
         (Config.OInt 10) (Config.OInt 30) None None) /\
  exists e,
    Database.__init__
      (Config.DatabaseConfig.new (VStr "oracle")
         (Config.OStr "user") (Config.OStr "pass") (Config.OStr "localhost")
         (Config.OInt 1521) Config.ONone (Config.OStr "utf8") (Config.OInt 5)
         (Config.OInt 10) (Config.OInt 30) None None) = Raised e /\
    is_UnsupportedBackend e = true.
Proof.
  apply (unknown_backend_passes_validation ""
           (Config.DatabaseConfig.new (VStr "oracle")
              (Config.OStr "user") (Config.OStr "pass")
              (Config.OStr "localhost") (Config.OInt 1521) Config.ONone
              (Config.OStr "utf8") (Config.OInt 5) (Config.OInt 10)
              (Config.OInt 30) None None)).
  - exact I.
  - unfold base_fields_ok, nonempty_str, port_number, none_or_str,
      number_from. simpl.
    repeat split; try (eexists; split; [reflexivity|]; (discriminate || lia));
      auto.
Defined.

(** X23: a collector never uses the connection it was constructed with:
    every statement goes through its executor, so two collectors of the
    same class on the same executor behave alike whatever connection each
    was given. *)
Theorem collector_connection_is_unused (c1 c2 : Connection)
    (ex : SafeQueryExecutor) (q : string) (p : option Params) (w : World) :
  collect_metrics (MySQL (MySQLTelemetryCollector.new c1 ex)) q p w
  = collect_metrics (MySQL (MySQLTelemetryCollector.new c2 ex)) q p w /\
  collect_metrics (PostgreSQL (PostgreSQLTelemetryCollector.new c1 ex)) q p w
  = collect_metrics (PostgreSQL (PostgreSQLTelemetryCollector.new c2 ex)) q p w.
Proof. split; reflexivity. Qed.
